(** * Signed documents: signing, verification and the trusted-key registry

    A shallow embedding of [vibe2025/signed_docs] (model.py, processor.py and
    service.py).  The Python classes become records, methods become functions
    that take [self] and return the new [self] where the method assigns to
    it, and a call that may raise returns an [outcome].  The third-party
    libraries the code calls ([cryptography], [pydantic], [json], [pathlib])
    are interfaces: type classes whose operations are the calls the source
    makes.  What a theorem needs from a library is a named law and appears as
    a hypothesis; a small reference implementation of every interface, given
    at the end of the definitions, satisfies all of the laws. *)

From Stdlib Require Import ZArith String Ascii List Lia Decimal DecimalPos DecimalZ DecimalString.
From Stdlib.Strings Require Import Byte.
From stdpp Require Import base option list gmap strings.

Local Open Scope string_scope.
Local Open Scope Z_scope.

(** ** Python outcomes

    Every exception the code can meet derives from [Exception]; an [exn]
    carries its class and its message ([str(e)]). *)

Inductive exception_class :=
| ValueError
| TypeError
| KeyError
| InvalidSignature
| FileNotFoundError
| OSError
| ValidationError
| JSONDecodeError.

#[global] Instance exception_class_eq_dec : EqDecision exception_class.
Proof. solve_decision. Defined.

Record exn := PyExc { exn_class : exception_class; exn_str : string }.

Inductive outcome (A : Type) :=
| Return (a : A)
| Raise (e : exn).
Arguments Return {A} a.
Arguments Raise {A} e.

#[global] Instance outcome_ret : MRet outcome := fun A a => Return a.
#[global] Instance outcome_bind : MBind outcome := fun A B f m =>
  match m with
  | Return a => f a
  | Raise e => Raise e
  end.

(** [returns m] holds when the call came back with a value. *)
Definition returns {A} (m : outcome A) : Prop := exists a, m = Return a.

(** ** bytes.hex() and bytes.fromhex() *)

(** The digit of a nibble, in lower case as [bytes.hex()] writes it. *)
Definition hex_digit (n : N) : ascii :=
  ascii_of_N (if (n <? 10)%N then 48 + n else 87 + n)%N.

(** The value of a hexadecimal digit of either case, [None] for any other
    character. *)
Definition hex_value (c : ascii) : option N :=
  let n := N_of_ascii c in
  if ((48 <=? n) && (n <=? 57))%N%bool then Some (n - 48)%N
  else if ((97 <=? n) && (n <=? 102))%N%bool then Some (n - 87)%N
  else if ((65 <=? n) && (n <=? 70))%N%bool then Some (n - 55)%N
  else None.

(** [Py_ISSPACE]: space, \t, \n, \v, \f, \r. *)
Definition is_space (c : ascii) : bool :=
  let n := N_of_ascii c in
  (N.eqb n 32 || (N.leb 9 n && N.leb n 13))%bool.

Definition byte_of_nibbles (top bot : N) : byte :=
  default x00 (Byte.of_N (16 * top + bot)).

Fixpoint bytes_hex (b : list byte) : string :=
  match b with
  | [] => EmptyString
  | x :: b' =>
      let n := Byte.to_N x in
      String (hex_digit (n / 16)) (String (hex_digit (n mod 16)) (bytes_hex b'))
  end.

Definition fromhex_error : exn :=
  PyExc ValueError "non-hexadecimal number found in fromhex() arg".

(** Whitespace is skipped between bytes, never inside one. *)
Fixpoint bytes_fromhex (s : string) : outcome (list byte) :=
  match s with
  | EmptyString => Return []
  | String c rest =>
      if is_space c then bytes_fromhex rest
      else match hex_value c, rest with
           | Some top, String c2 rest2 =>
               match hex_value c2 with
               | Some bot =>
                   match bytes_fromhex rest2 with
                   | Return bs => Return (byte_of_nibbles top bot :: bs)
                   | Raise e => Raise e
                   end
               | None => Raise fromhex_error
               end
           | _, _ => Raise fromhex_error
           end
  end.

(** str.encode('utf-8') and bytes.decode('utf-8'): a [str] is held as the
    bytes of its UTF-8 encoding, so both are the change of representation. *)
Definition str_encode (s : string) : list byte := list_byte_of_string s.
Definition bytes_decode (b : list byte) : string := string_of_list_byte b.

(** Truth value of an optional string ([if password], [if private_key_path]). *)
Definition str_truthy (s : option string) : bool :=
  match s with
  | None => false
  | Some EmptyString => false
  | Some _ => true
  end.

(** ** The data model (model.py)

    [UUID] and [datetime] are the standard library's classes.  The code only
    compares UUIDs and passes datetimes along, so both stay abstract. *)

Class PyValues := {
  UUID : Type;
  UUID_eq_dec :: EqDecision UUID;
  datetime : Type;
}.

Record Paragraph := {
  fixed_text : string;
  placeholder : string;
  text : string;
}.

Record Document `{PyValues} := {
  id : UUID;
  parent_document_id : option UUID;
  author_id : Z;
  addressee_id : Z;
  created_at : datetime;
  content : list Paragraph;
}.

Record Signature `{PyValues} := {
  document_id : UUID;
  json_version : string;
  signator_id : Z;
  public_key : string;
  signature : string;
  signed_at : datetime;
}.

(** ** Library interfaces *)

(** What [json.loads] returns: dicts keep insertion order. *)
#[warnings="-register-all"]
Inductive json :=
| JNull
| JBool (b : bool)
| JInt (n : Z)
| JStr (s : string)
| JList (l : list json)
| JDict (kvs : list (string * json)).

(** [json]: [loads] and [dumps(data, indent=2, default=str)]. *)
Class JsonLib := {
  json_loads : string -> outcome json;
  json_dumps : json -> string;
}.

(** [pydantic.BaseModel]: [model_dump_json(indent=...)] of either model and
    the constructors [Document] and [Signature] called with keyword
    arguments. *)
Class Pydantic `{PyValues} := {
  Document_model_dump_json : option nat -> Document -> string;
  Signature_model_dump_json : option nat -> Signature -> string;
  Document_init : list (string * json) -> outcome Document;
  Signature_init : list (string * json) -> outcome Signature;
}.

(** [cryptography.hazmat]: key objects of any asymmetric scheme.  [key_sign]
    and [key_verify] are the calls [k.sign(message, PSS(MGF1(SHA256),
    MAX_LENGTH), SHA256)] and [pk.verify(signature, message, PSS(...),
    SHA256)] exactly as the source writes them; [Entropy] and [Salt] are the
    random bits key generation and the PSS padding draw. *)
Class Cryptography := {
  PrivateKey : Type;
  PublicKey : Type;
  Entropy : Type;
  Salt : Type;
  rsa_generate_private_key : Entropy -> PrivateKey;
  load_pem_private_key : list byte -> option (list byte) -> outcome PrivateKey;
  load_pem_public_key : list byte -> outcome PublicKey;
  key_public_key : PrivateKey -> PublicKey;
  key_public_bytes : PublicKey -> list byte;
  key_sign : PrivateKey -> list byte -> Salt -> outcome (list byte);
  key_verify : PublicKey -> list byte -> list byte -> outcome unit;
}.

(** [pathlib.Path]: the files by path, and whether a path can be written. *)
Record FileSystem := {
  files : gmap string (list byte);
  writable : string -> bool;
}.

Definition path_exists (fs : FileSystem) (p : string) : bool :=
  bool_decide (is_Some (files fs !! p)).

Definition read_bytes (fs : FileSystem) (p : string) : outcome (list byte) :=
  match files fs !! p with
  | Some b => Return b
  | None => Raise (PyExc FileNotFoundError p)
  end.

Definition read_text (fs : FileSystem) (p : string) : outcome string :=
  b ← read_bytes fs p; Return (bytes_decode b).

Definition write_text (fs : FileSystem) (p : string) (s : string) : outcome FileSystem :=
  if writable fs p
  then Return {| files := <[p := str_encode s]> (files fs); writable := writable fs |}
  else Raise (PyExc OSError p).

(** Subscripting and keyword-unpacking a value that came from [json.loads]. *)
Fixpoint dict_get (kvs : list (string * json)) (key : string) : option json :=
  match kvs with
  | [] => None
  | (k, v) :: kvs' => if String.eqb k key then Some v else dict_get kvs' key
  end.

Definition getitem (data : json) (key : string) : outcome json :=
  match data with
  | JDict kvs =>
      match dict_get kvs key with
      | Some v => Return v
      | None => Raise (PyExc KeyError key)
      end
  | _ => Raise (PyExc TypeError "indices must be integers or the object is not subscriptable")
  end.

Definition kwargs (data : json) : outcome (list (string * json)) :=
  match data with
  | JDict kvs => Return kvs
  | _ => Raise (PyExc TypeError "argument after ** must be a mapping")
  end.

(** ** DocumentProcessor (processor.py) *)

Section Processor.
Context `{PyValues} `{!Pydantic} `{Cryptography} `{JsonLib}.

Record DocumentProcessor := { private_key : option PrivateKey }.

Definition load_private_key (self : DocumentProcessor) (fs : FileSystem)
    (filename : string) (password : option string)
    : outcome (DocumentProcessor * PrivateKey) :=
  pem_data ← read_bytes fs filename;
  k ← load_pem_private_key pem_data
        (if str_truthy password then str_encode <$> password else None);
  Return ({| private_key := Some k |}, k).

Definition DocumentProcessor_init (fs : FileSystem) (private_key_path : option string)
    : outcome DocumentProcessor :=
  let self := {| private_key := None |} in
  match private_key_path with
  | Some path =>
      if (str_truthy private_key_path && path_exists fs path)%bool
      then '(self', _) ← load_private_key self fs path None; Return self'
      else Return self
  | None => Return self
  end.

Definition generate_keys (self : DocumentProcessor) (entropy : Entropy)
    : DocumentProcessor * PrivateKey :=
  let k := rsa_generate_private_key entropy in
  ({| private_key := Some k |}, k).

Definition get_public_key_pem (self : DocumentProcessor) : outcome string :=
  match private_key self with
  | None => Raise (PyExc ValueError "No private key available")
  | Some k => Return (bytes_decode (key_public_bytes (key_public_key k)))
  end.

Definition _document_to_canonical_json (self : DocumentProcessor) (document : Document) : string :=
  Document_model_dump_json None document.

(** [salt] is what the PSS padding draws, [now] what [datetime.now()] reads. *)
Definition sign_document (self : DocumentProcessor) (document : Document)
    (signator_id : Z) (salt : Salt) (now : datetime) : outcome Signature :=
  match private_key self with
  | None => Raise (PyExc ValueError "No private key loaded")
  | Some k =>
      let json_version := _document_to_canonical_json self document in
      let message := str_encode json_version in
      signature_bytes ← key_sign k message salt;
      pem ← get_public_key_pem self;
      Return {| document_id := id document;
                json_version := json_version;
                signator_id := signator_id;
                public_key := pem;
                signature := bytes_hex signature_bytes;
                signed_at := now |}
  end.

(** The body of the [try] block of [verify_signature]. *)
Definition verify_signature_try (self : DocumentProcessor) (document : Document)
    (sig : Signature) : outcome bool :=
  if negb (bool_decide (id document = document_id sig)) then Return false
  else
    pk ← load_pem_public_key (str_encode (public_key sig));
    let current_json := _document_to_canonical_json self document in
    if negb (String.eqb current_json (json_version sig)) then Return false
    else
      let message := str_encode (json_version sig) in
      signature_bytes ← bytes_fromhex (signature sig);
      _ ← key_verify pk signature_bytes message;
      Return true.

(** [except InvalidSignature: return False] then [except Exception: return False]. *)
Definition verify_signature (self : DocumentProcessor) (document : Document)
    (sig : Signature) : outcome bool :=
  match verify_signature_try self document sig with
  | Return b => Return b
  | Raise e =>
      if decide (exn_class e = InvalidSignature) then Return false
      else Return false
  end.

Definition save_document_signature_pair (self : DocumentProcessor) (fs : FileSystem)
    (document : Document) (sig : Signature) (filename : string) : outcome FileSystem :=
  doc_json ← json_loads (Document_model_dump_json None document);
  sig_json ← json_loads (Signature_model_dump_json None sig);
  let data := JDict [("document", doc_json); ("signature", sig_json)] in
  write_text fs filename (json_dumps data).

Definition load_document_signature_pair (self : DocumentProcessor) (fs : FileSystem)
    (filename : string) : outcome (Document * Signature) :=
  txt ← read_text fs filename;
  data ← json_loads txt;
  doc_data ← getitem data "document";
  doc_kwargs ← kwargs doc_data;
  document ← Document_init doc_kwargs;
  sig_data ← getitem data "signature";
  sig_kwargs ← kwargs sig_data;
  sig ← Signature_init sig_kwargs;
  Return (document, sig).

End Processor.

Arguments DocumentProcessor {_}.

(** ** SignedDocumentsService (service.py) *)

Section Service.
Context `{PyValues} `{!Pydantic} `{Cryptography}.

Record SignedDocumentsService := { trusted_keys : gmap Z string }.

Definition SignedDocumentsService_init : SignedDocumentsService :=
  {| trusted_keys := ∅ |}.

(** The service after the call, and how the call ended. *)
Definition add_trusted_key (self : SignedDocumentsService) (signer_id : Z)
    (public_key_pem : string) : SignedDocumentsService * outcome unit :=
  match load_pem_public_key (str_encode public_key_pem) with
  | Raise e =>
      (self, Raise (PyExc ValueError ("Invalid public key format: " ++ exn_str e)))
  | Return _ =>
      ({| trusted_keys := <[signer_id := public_key_pem]> (trusted_keys self) |},
       Return tt)
  end.

Definition remove_trusted_key (self : SignedDocumentsService) (signer_id : Z)
    : SignedDocumentsService * bool :=
  if bool_decide (is_Some (trusted_keys self !! signer_id))
  then ({| trusted_keys := delete signer_id (trusted_keys self) |}, true)
  else (self, false).

Definition get_trusted_key (self : SignedDocumentsService) (signer_id : Z) : option string :=
  trusted_keys self !! signer_id.

(** The body of the [try] block of [verify_document_signature]. *)
Definition verify_document_signature_try (self : SignedDocumentsService)
    (document : Document) (sig : Signature) : outcome bool :=
  if negb (bool_decide (is_Some (trusted_keys self !! signator_id sig))) then Return false
  else if negb (bool_decide (id document = document_id sig)) then Return false
  else
    trusted_key_pem ←
      match trusted_keys self !! signator_id sig with
      | Some pem => Return pem
      | None => Raise (PyExc KeyError "signator_id")
      end;
    if negb (String.eqb (public_key sig) trusted_key_pem) then Return false
    else
      pk ← load_pem_public_key (str_encode trusted_key_pem);
      let current_json := Document_model_dump_json None document in
      if negb (String.eqb current_json (json_version sig)) then Return false
      else
        let message := str_encode (json_version sig) in
        signature_bytes ← bytes_fromhex (signature sig);
        _ ← key_verify pk signature_bytes message;
        Return true.

Definition verify_document_signature (self : SignedDocumentsService)
    (document : Document) (sig : Signature) : outcome bool :=
  match verify_document_signature_try self document sig with
  | Return b => Return b
  | Raise e =>
      if decide (exn_class e = InvalidSignature) then Return false
      else Return false
  end.

End Service.

(** ** The rest of the package

    The key-file methods of [DocumentProcessor], the listing of the
    registry, the module-level functions of crypto_utils.py and the HTTP
    handlers of document_app.py. *)

(** [Path.write_bytes], and [open(filename, 'wb')] followed by [write]. *)
Definition write_bytes (fs : FileSystem) (p : string) (b : list byte) : outcome FileSystem :=
  if writable fs p
  then Return {| files := <[p := b]> (files fs); writable := writable fs |}
  else Raise (PyExc OSError p).

(** [key.private_bytes(Encoding.PEM, PrivateFormat.PKCS8, encryption)], where
    [encryption] is [BestAvailableEncryption(password)] for [Some password]
    and [NoEncryption()] for [None]. *)
Class PrivateKeySerializer `{Cryptography} := {
  key_private_bytes : PrivateKey -> option (list byte) -> list byte;
}.

(** [password.encode() if password else None], and the choice between
    [BestAvailableEncryption] and [NoEncryption] made by the same test. *)
Definition password_bytes (password : option string) : option (list byte) :=
  if str_truthy password then str_encode <$> password else None.

Section ProcessorKeys.
Context `{Cryptography} `{!PrivateKeySerializer}.

Definition save_private_key (self : DocumentProcessor) (fs : FileSystem)
    (filename : string) (password : option string) : outcome FileSystem :=
  match private_key self with
  | None => Raise (PyExc ValueError "No private key to save")
  | Some k =>
      let encryption := password_bytes password in
      let pem := key_private_bytes k encryption in
      write_bytes fs filename pem
  end.

End ProcessorKeys.

(** [list(self.trusted_keys.keys())].  Python lists the signers in insertion
    order; here they come in the order of the map, so only membership,
    multiplicity and length of the list are meaningful. *)
Definition list_trusted_signers (self : SignedDocumentsService) : list Z :=
  (map_to_list (trusted_keys self)).*1.

(** *** crypto_utils.py *)

Module crypto_utils.
Section CryptoUtils.
Context `{Cryptography} `{!PrivateKeySerializer}.

Definition generate_keys (entropy : Entropy) : PrivateKey :=
  rsa_generate_private_key entropy.

Definition save_private_key (fs : FileSystem) (private_key : PrivateKey)
    (filename : string) (password : option string) : outcome FileSystem :=
  let encryption := password_bytes password in
  let pem := key_private_bytes private_key encryption in
  write_bytes fs filename pem.

Definition save_public_key (fs : FileSystem) (private_key : PrivateKey)
    (filename : string) : outcome FileSystem :=
  let pk := key_public_key private_key in
  let pem := key_public_bytes pk in
  write_bytes fs filename pem.

Definition load_private_key (fs : FileSystem) (filename : string)
    (password : option string) : outcome PrivateKey :=
  data ← read_bytes fs filename;
  load_pem_private_key data (password_bytes password).

Definition load_public_key (fs : FileSystem) (filename : string) : outcome PublicKey :=
  data ← read_bytes fs filename;
  load_pem_public_key data.

Definition sign_text (text : string) (private_key : PrivateKey) (salt : Salt)
    : outcome (list byte) :=
  let message := str_encode text in
  key_sign private_key message salt.

(** Only [InvalidSignature] is caught; any other exception leaves the function. *)
Definition verify_signature (text : string) (signature_bytes : list byte)
    (pk : PublicKey) : outcome bool :=
  let message := str_encode text in
  match key_verify pk signature_bytes message with
  | Return _ => Return true
  | Raise e =>
      if decide (exn_class e = InvalidSignature) then Return false
      else Raise e
  end.

End CryptoUtils.
End crypto_utils.

(** *** document_app.py *)

(** [isinstance(e, ValueError)]: pydantic's [ValidationError] and
    [json.JSONDecodeError] derive from [ValueError]. *)
Definition is_ValueError (c : exception_class) : bool :=
  match c with
  | ValueError | ValidationError | JSONDecodeError => true
  | _ => false
  end.

(** [s.replace('\\n', '\n')]: every backslash followed by [n], scanning from
    the left, becomes a line feed. *)
Fixpoint replace_backslash_n (s : string) : string :=
  match s with
  | EmptyString => EmptyString
  | String c rest =>
      match rest with
      | String c2 rest2 =>
          if (Ascii.eqb c "092" && Ascii.eqb c2 "n")%bool
          then String "010" (replace_backslash_n rest2)
          else String c (replace_backslash_n rest)
      | EmptyString => String c EmptyString
      end
  end.

(** Whether a text holds a backslash, and the text with every line feed
    written as backslash, [n]: the form in which a PEM arrives when its line
    breaks were escaped. *)
Fixpoint has_backslash (s : string) : bool :=
  match s with
  | EmptyString => false
  | String c rest => (Ascii.eqb c "092" || has_backslash rest)%bool
  end.

Fixpoint line_feeds_escaped (s : string) : string :=
  match s with
  | EmptyString => EmptyString
  | String c rest =>
      if Ascii.eqb c "010"
      then String "092" (String "n" (line_feeds_escaped rest))
      else String c (line_feeds_escaped rest)
  end.

(** [str(n)] of an [int]. *)
Definition str_of_int (n : Z) : string := NilZero.string_of_int (Z.to_int n).

(** How a handler ends: a response with its status code, an [HTTPException]
    the handler raised, or an exception it did not catch. *)
Inductive http (A : Type) :=
| Response (status_code : Z) (body : A)
| HTTPException (status_code : Z) (detail : string)
| Unhandled (e : exn).
Arguments Response {A} status_code body.
Arguments HTTPException {A} status_code detail.
Arguments Unhandled {A} e.

Module AddKeyRequest.
Record t := { signer_id : Z; public_key_pem : string }.
End AddKeyRequest.

Module AddKeyResponse.
Record t := { success : bool; message : string }.
End AddKeyResponse.

Module RemoveKeyResponse.
Record t := { success : bool; message : string }.
End RemoveKeyResponse.

Module VerifyResponse.
Record t := { valid : bool; message : string }.
End VerifyResponse.

Module TrustedSignersResponse.
Record t := { signer_ids : list Z }.
End TrustedSignersResponse.

Module GetKeyResponse.
Record t := { signer_id : Z; public_key_pem : option string; found : bool }.
End GetKeyResponse.

Module HealthResponse.
Record t := { status : string; trusted_signers_count : nat }.
End HealthResponse.

(** The service's own listing, under a name the handlers do not shadow. *)
Definition service_list_trusted_signers := list_trusted_signers.

Module document_app.
Section Handlers.
Context `{PyValues} `{!Pydantic} `{Cryptography}.

(** Every handler takes the module's [service] and gives it back. *)
Definition add_trusted_key (service : SignedDocumentsService) (request : AddKeyRequest.t)
    : SignedDocumentsService * http AddKeyResponse.t :=
  let public_key_pem := replace_backslash_n (AddKeyRequest.public_key_pem request) in
  match add_trusted_key service (AddKeyRequest.signer_id request) public_key_pem with
  | (service', Return _) =>
      (service',
       Response 201
         {| AddKeyResponse.success := true;
            AddKeyResponse.message :=
              "Successfully added trusted key for signer "
              ++ str_of_int (AddKeyRequest.signer_id request) |})
  | (service', Raise e) =>
      if is_ValueError (exn_class e)
      then (service', HTTPException 400 (exn_str e))
      else (service', Unhandled e)
  end.

Definition remove_trusted_key (service : SignedDocumentsService) (signer_id : Z)
    : SignedDocumentsService * http RemoveKeyResponse.t :=
  let '(service', removed) := remove_trusted_key service signer_id in
  if removed
  then (service',
        Response 200
          {| RemoveKeyResponse.success := true;
             RemoveKeyResponse.message :=
               "Successfully removed key for signer " ++ str_of_int signer_id |})
  else (service',
        HTTPException 404 ("Signer " ++ str_of_int signer_id ++ " not found")).

Definition get_trusted_key (service : SignedDocumentsService) (signer_id : Z)
    : http GetKeyResponse.t :=
  let key := get_trusted_key service signer_id in
  Response 200
    {| GetKeyResponse.signer_id := signer_id;
       GetKeyResponse.public_key_pem := key;
       GetKeyResponse.found := bool_decide (is_Some key) |}.

Definition list_trusted_signers (service : SignedDocumentsService)
    : http TrustedSignersResponse.t :=
  Response 200 {| TrustedSignersResponse.signer_ids := list_trusted_signers service |}.

Definition verify_document_signature (service : SignedDocumentsService)
    (document : Document) (sig : Signature) : http VerifyResponse.t :=
  match verify_document_signature service document sig with
  | Return is_valid =>
      if is_valid
      then Response 200
             {| VerifyResponse.valid := true;
                VerifyResponse.message := "Signature is valid" |}
      else Response 200
             {| VerifyResponse.valid := false;
                VerifyResponse.message := "Signature is invalid or signer is not trusted" |}
  | Raise e => HTTPException 500 ("Verification error: " ++ exn_str e)
  end.

Definition health_check (service : SignedDocumentsService) : http HealthResponse.t :=
  Response 200
    {| HealthResponse.status := "healthy";
       HealthResponse.trusted_signers_count := length (service_list_trusted_signers service) |}.

End Handlers.
End document_app.

(** ** Library laws

    What the theorems below assume of the libraries, one named proposition
    per contract. *)

Section Laws.
Context `{PyValues} `{!Pydantic} `{Cryptography} `{JsonLib}.

(** A key that [rsa.generate_private_key(65537, 2048)] produced. *)
Definition generated (k : PrivateKey) : Prop :=
  exists entropy, k = rsa_generate_private_key entropy.

(** RSA-PSS signing with a generated key returns a signature. *)
Definition rsa_sign_returns : Prop :=
  forall k message salt, generated k -> returns (key_sign k message salt).

(** RSA-PSS correctness: the public half accepts what the private half signed. *)
Definition rsa_verify_accepts : Prop :=
  forall k message salt sig,
    generated k ->
    key_sign k message salt = Return sig ->
    key_verify (key_public_key k) sig message = Return tt.

(** The PEM export of a generated key's public half loads back as that key. *)
Definition public_pem_round_trip : Prop :=
  forall k,
    generated k ->
    load_pem_public_key (key_public_bytes (key_public_key k))
    = Return (key_public_key k).


(** A dumped document parses and validates to a document with the same id
    and the same canonical JSON. *)
Definition Document_json_round_trip : Prop :=
  forall d : Document, exists j kw d',
    json_loads (Document_model_dump_json None d) = Return j /\
    kwargs j = Return kw /\
    Document_init kw = Return d' /\
    id d' = id d /\
    Document_model_dump_json None d' = Document_model_dump_json None d.

(** A dumped artifact parses and validates to an artifact with the same
    document id, payload, signer, key and signature. *)
Definition Signature_json_round_trip : Prop :=
  forall a : Signature, exists j kw a',
    json_loads (Signature_model_dump_json None a) = Return j /\
    kwargs j = Return kw /\
    Signature_init kw = Return a' /\
    document_id a' = document_id a /\
    json_version a' = json_version a /\
    signator_id a' = signator_id a /\
    public_key a' = public_key a /\
    signature a' = signature a.

(** [json.loads(json.dumps(data))] gives back the two-entry dict the store
    writes, for entries that themselves came from [json.loads]. *)
Definition json_dumps_round_trip : Prop :=
  forall sd ss jd js,
    json_loads sd = Return jd ->
    json_loads ss = Return js ->
    json_loads (json_dumps (JDict [("document", jd); ("signature", js)]))
    = Return (JDict [("document", jd); ("signature", js)]).

End Laws.

(** ** Reference libraries

    A small implementation of every interface above, on which the library
    laws hold and the theorems can be run: a compact JSON codec, models that
    dump to and validate from it, textbook RSA over three fixed small moduli
    with a salted digest, a second key scheme without PSS signing, and PEM
    text that carries the key material in hexadecimal. *)

Module Reference.
Local Open Scope list_scope.

(** *** JSON text *)

Definition quote : ascii := "034"%char.
Definition backslash : ascii := "092"%char.

Definition chars (s : string) : list ascii := list_ascii_of_string s.

Definition needs_escape (c : ascii) : bool :=
  (Ascii.eqb c quote || Ascii.eqb c backslash)%bool.

Fixpoint escape (s : list ascii) : list ascii :=
  match s with
  | [] => []
  | c :: s' => if needs_escape c then backslash :: c :: escape s' else c :: escape s'
  end.

Definition print_str (s : string) : list ascii :=
  quote :: escape (chars s) ++ [quote].

Fixpoint print_uint (u : Decimal.uint) : list ascii :=
  match u with
  | Nil => []
  | D0 u => "0"%char :: print_uint u
  | D1 u => "1"%char :: print_uint u
  | D2 u => "2"%char :: print_uint u
  | D3 u => "3"%char :: print_uint u
  | D4 u => "4"%char :: print_uint u
  | D5 u => "5"%char :: print_uint u
  | D6 u => "6"%char :: print_uint u
  | D7 u => "7"%char :: print_uint u
  | D8 u => "8"%char :: print_uint u
  | D9 u => "9"%char :: print_uint u
  end.

Definition print_int (n : Z) : list ascii :=
  match Z.to_int n with
  | Decimal.Pos u => print_uint u
  | Decimal.Neg u => "-"%char :: print_uint u
  end.

Fixpoint join_elems (close : ascii) (ps : list (list ascii)) : list ascii :=
  match ps with
  | [] => [close]
  | p :: ps' =>
      p ++ match ps' with
           | [] => [close]
           | _ => ","%char :: join_elems close ps'
           end
  end.

Fixpoint print (j : json) : list ascii :=
  match j with
  | JNull => chars "null"
  | JBool true => chars "true"
  | JBool false => chars "false"
  | JInt n => print_int n
  | JStr s => print_str s
  | JList l => "["%char :: join_elems "]" (map print l)
  | JDict kvs =>
      "{"%char :: join_elems "}"
        (map (fun kv => print_str (fst kv) ++ ":"%char :: print (snd kv)) kvs)
  end.

Definition digit_of (c : ascii) : option (Decimal.uint -> Decimal.uint) :=
  match c with
  | "0" => Some D0 | "1" => Some D1 | "2" => Some D2 | "3" => Some D3
  | "4" => Some D4 | "5" => Some D5 | "6" => Some D6 | "7" => Some D7
  | "8" => Some D8 | "9" => Some D9 | _ => None
  end%char.

Fixpoint parse_digits (s : list ascii) : Decimal.uint * list ascii :=
  match s with
  | [] => (Nil, [])
  | c :: s' =>
      match digit_of c with
      | Some digit => let '(u, rest) := parse_digits s' in (digit u, rest)
      | None => (Nil, s)
      end
  end.

Definition starts_number (c : ascii) : bool :=
  (bool_decide (is_Some (digit_of c)) || Ascii.eqb c "-")%bool.

Definition parse_int (s : list ascii) : option (json * list ascii) :=
  match s with
  | c :: s' =>
      if Ascii.eqb c "-" then
        match parse_digits s' with
        | (Nil, _) => None
        | (u, rest) => Some (JInt (Z.of_int (Decimal.Neg u)), rest)
        end
      else
        match parse_digits s with
        | (Nil, _) => None
        | (u, rest) => Some (JInt (Z.of_int (Decimal.Pos u)), rest)
        end
  | [] => None
  end.

(** After the opening quote: the text up to the closing quote, and what follows it. *)
Fixpoint parse_str (s : list ascii) : option (list ascii * list ascii) :=
  match s with
  | [] => None
  | c :: rest =>
      if Ascii.eqb c quote then Some ([], rest)
      else if Ascii.eqb c backslash then
        match rest with
        | c2 :: rest2 =>
            if needs_escape c2 then
              match parse_str rest2 with
              | Some (str, r) => Some (c2 :: str, r)
              | None => None
              end
            else None
        | [] => None
        end
      else
        match parse_str rest with
        | Some (str, r) => Some (c :: str, r)
        | None => None
        end
  end.

Fixpoint strip_prefix (p s : list ascii) : option (list ascii) :=
  match p, s with
  | [], _ => Some s
  | a :: p', b :: s' => if Ascii.eqb a b then strip_prefix p' s' else None
  | _ :: _, [] => None
  end.

Definition starts_with (c : ascii) (s : list ascii) : bool :=
  match s with
  | c' :: _ => Ascii.eqb c' c
  | [] => false
  end.

Fixpoint parse_value (fuel : nat) (s : list ascii) : option (json * list ascii) :=
  match fuel with
  | O => None
  | S fuel' =>
      match s with
      | [] => None
      | c :: rest =>
          if starts_number c then parse_int s
          else if Ascii.eqb c "n" then
            rest' ← strip_prefix (chars "ull") rest; Some (JNull, rest')
          else if Ascii.eqb c "t" then
            rest' ← strip_prefix (chars "rue") rest; Some (JBool true, rest')
          else if Ascii.eqb c "f" then
            rest' ← strip_prefix (chars "alse") rest; Some (JBool false, rest')
          else if Ascii.eqb c quote then
            '(str, rest') ← parse_str rest; Some (JStr (string_of_list_ascii str), rest')
          else if Ascii.eqb c "[" then
            if starts_with "]" rest then Some (JList [], tl rest)
            else '(l, rest') ← parse_elems fuel' rest; Some (JList l, rest')
          else if Ascii.eqb c "{" then
            if starts_with "}" rest then Some (JDict [], tl rest)
            else '(kvs, rest') ← parse_members fuel' rest; Some (JDict kvs, rest')
          else None
      end
  end
with parse_elems (fuel : nat) (s : list ascii) : option (list json * list ascii) :=
  match fuel with
  | O => None
  | S fuel' =>
      match parse_value fuel' s with
      | Some (v, c :: rest) =>
          if Ascii.eqb c "," then
            '(vs, rest') ← parse_elems fuel' rest; Some (v :: vs, rest')
          else if Ascii.eqb c "]" then Some ([v], rest)
          else None
      | _ => None
      end
  end
with parse_members (fuel : nat) (s : list ascii)
    : option (list (string * json) * list ascii) :=
  match fuel with
  | O => None
  | S fuel' =>
      match s with
      | c :: s1 =>
          if Ascii.eqb c quote then
            match parse_str s1 with
            | Some (k, c1 :: s2) =>
                if Ascii.eqb c1 ":" then
                  match parse_value fuel' s2 with
                  | Some (v, c2 :: rest) =>
                      if Ascii.eqb c2 "," then
                        '(kvs, rest') ← parse_members fuel' rest;
                        Some ((string_of_list_ascii k, v) :: kvs, rest')
                      else if Ascii.eqb c2 "}" then
                        Some ([(string_of_list_ascii k, v)], rest)
                      else None
                  | _ => None
                  end
                else None
            | _ => None
            end
          else None
      | [] => None
      end
  end.

Definition print_json (j : json) : string := string_of_list_ascii (print j).

Definition parse_json (s : string) : option json :=
  match parse_value (S (String.length s)) (chars s) with
  | Some (j, []) => Some j
  | _ => None
  end.


Definition print_member (kv : string * json) : list ascii :=
  print_str (fst kv) ++ ":"%char :: print (snd kv).

(** A number ends where the text ends or a character that is no digit follows. *)
Definition number_ends (rest : list ascii) : Prop :=
  match rest with
  | [] => True
  | c :: _ => digit_of c = None
  end.

(** What the parser of a value needs: enough fuel, and a following character
    that ends a number. *)
Definition parses (j : json) : Prop :=
  forall fuel rest,
    (length (print j) < fuel)%nat -> number_ends rest ->
    parse_value fuel (print j ++ rest) = Some (j, rest).

#[export] Instance json_lib : JsonLib := {|
  json_loads s :=
    match parse_json s with
    | Some j => Return j
    | None => Raise (PyExc JSONDecodeError s)
    end;
  json_dumps := print_json;
|}.

(** *** Models: a UUID is its canonical text, a datetime its ISO-8601 text. *)

#[export] Instance py_values : PyValues := {|
  UUID := string;
  UUID_eq_dec := String.eq_dec;
  datetime := string;
|}.

Definition Paragraph_to_json (p : Paragraph) : json :=
  JDict [("fixed_text", JStr (fixed_text p));
         ("placeholder", JStr (placeholder p));
         ("text", JStr (text p))].

Definition Document_to_json (d : Document) : json :=
  JDict [("id", JStr (id d));
         ("parent_document_id",
          match parent_document_id d with Some u => JStr u | None => JNull end);
         ("author_id", JInt (author_id d));
         ("addressee_id", JInt (addressee_id d));
         ("created_at", JStr (created_at d));
         ("content", JList (map Paragraph_to_json (content d)))].

Definition Signature_to_json (a : Signature) : json :=
  JDict [("document_id", JStr (document_id a));
         ("json_version", JStr (json_version a));
         ("signator_id", JInt (signator_id a));
         ("public_key", JStr (public_key a));
         ("signature", JStr (signature a));
         ("signed_at", JStr (signed_at a))].

Definition invalid (field : string) : exn := PyExc ValidationError field.

Definition field_str (kw : list (string * json)) (name : string) : outcome string :=
  match dict_get kw name with
  | Some (JStr s) => Return s
  | _ => Raise (invalid name)
  end.

Definition field_int (kw : list (string * json)) (name : string) : outcome Z :=
  match dict_get kw name with
  | Some (JInt n) => Return n
  | _ => Raise (invalid name)
  end.

Definition field_uuid (kw : list (string * json)) (name : string) : outcome UUID :=
  field_str kw name.

Definition field_datetime (kw : list (string * json)) (name : string) : outcome datetime :=
  field_str kw name.

Definition field_optional_uuid (kw : list (string * json)) (name : string)
    : outcome (option UUID) :=
  match dict_get kw name with
  | Some (JStr s) => Return (Some s)
  | Some JNull | None => Return None
  | _ => Raise (invalid name)
  end.

Definition Paragraph_of_json (j : json) : outcome Paragraph :=
  match j with
  | JDict kw =>
      ft ← field_str kw "fixed_text";
      ph ← field_str kw "placeholder";
      tx ← field_str kw "text";
      Return {| fixed_text := ft; placeholder := ph; text := tx |}
  | _ => Raise (invalid "content")
  end.

Fixpoint Paragraphs_of_json (l : list json) : outcome (list Paragraph) :=
  match l with
  | [] => Return []
  | j :: l' =>
      p ← Paragraph_of_json j;
      ps ← Paragraphs_of_json l';
      Return (p :: ps)
  end.

Definition Document_of_kwargs (kw : list (string * json)) : outcome Document :=
  i ← field_uuid kw "id";
  parent ← field_optional_uuid kw "parent_document_id";
  author ← field_int kw "author_id";
  addressee ← field_int kw "addressee_id";
  created ← field_datetime kw "created_at";
  paragraphs ←
    match dict_get kw "content" with
    | Some (JList l) => Paragraphs_of_json l
    | _ => Raise (invalid "content")
    end;
  Return {| id := i; parent_document_id := parent; author_id := author;
            addressee_id := addressee; created_at := created;
            content := paragraphs |}.

Definition Signature_of_kwargs (kw : list (string * json)) : outcome Signature :=
  doc ← field_uuid kw "document_id";
  jv ← field_str kw "json_version";
  signer ← field_int kw "signator_id";
  pk ← field_str kw "public_key";
  sg ← field_str kw "signature";
  at_ ← field_datetime kw "signed_at";
  Return {| document_id := doc; json_version := jv; signator_id := signer;
            public_key := pk; signature := sg; signed_at := at_ |}.

(** The reference dump is always compact: [indent] is not interpreted. *)
#[export] Instance pydantic : Pydantic := {|
  Document_model_dump_json _ d := print_json (Document_to_json d);
  Signature_model_dump_json _ a := print_json (Signature_to_json a);
  Document_init := Document_of_kwargs;
  Signature_init := Signature_of_kwargs;
|}.

(** *** Keys *)

Inductive private_key_object :=
| RSAPrivateKey (n e d : Z)
| ECPrivateKey (x : Z).

Inductive public_key_object :=
| RSAPublicKey (n e : Z)
| ECPublicKey (x : Z).

Fixpoint pow_mod_pos (b : Z) (e : positive) (n : Z) : Z :=
  match e with
  | xH => b mod n
  | xO e' => let r := pow_mod_pos b e' n in (r * r) mod n
  | xI e' => let r := pow_mod_pos b e' n in (r * r * b) mod n
  end.

Definition pow_mod (b e n : Z) : Z :=
  match e with
  | Zpos p => pow_mod_pos b p n
  | _ => 1 mod n
  end.

Definition byte_of_Z (z : Z) : byte := default x00 (Byte.of_N (Z.to_N (z mod 256))).
Definition Z_of_byte (b : byte) : Z := Z.of_N (Byte.to_N b).

Definition digest (message : list byte) : Z :=
  fold_left (fun acc b => (acc * 257 + Z_of_byte b + 1) mod 65521) message 7.

(** Public exponent 65537, as the source asks; the moduli are 61*53, 47*59
    and 89*97. *)
Definition generate (entropy : nat) : private_key_object :=
  match (entropy mod 3)%nat with
  | O => RSAPrivateKey 3233 65537 2753
  | S O => RSAPrivateKey 2773 65537 2629
  | _ => RSAPrivateKey 8633 65537 6401
  end.

Definition public_half (k : private_key_object) : public_key_object :=
  match k with
  | RSAPrivateKey n e _ => RSAPublicKey n e
  | ECPrivateKey x => ECPublicKey (x * 2 + 1)
  end.

Definition rsa_accepts (n e : Z) (hi lo : byte) (h : Z) : bool :=
  let s := 256 * Z_of_byte hi + Z_of_byte lo in
  ((s <? n) && (pow_mod s e n =? h))%bool.

Definition not_rsa : exn :=
  PyExc TypeError "sign() and verify() of this key take no padding argument".

(** A signature is the salt followed by the two bytes of digest^d mod n. *)
Definition sign (k : private_key_object) (message : list byte) (salt : byte)
    : outcome (list byte) :=
  match k with
  | RSAPrivateKey n _ d =>
      let s := pow_mod (digest (salt :: message) mod n) d n in
      Return [salt; byte_of_Z (s / 256); byte_of_Z s]
  | ECPrivateKey _ => Raise not_rsa
  end.

Definition verify (pk : public_key_object) (sig message : list byte) : outcome unit :=
  match pk with
  | RSAPublicKey n e =>
      match sig with
      | [salt; hi; lo] =>
          if rsa_accepts n e hi lo (digest (salt :: message) mod n)
          then Return tt
          else Raise (PyExc InvalidSignature EmptyString)
      | _ => Raise (PyExc InvalidSignature EmptyString)
      end
  | ECPublicKey _ => Raise not_rsa
  end.

(** One signature round on digest [h]: sign with [d], encode, decode, accept with [e]. *)
Definition rsa_round (n e d h : Z) : bool :=
  let s := pow_mod h d n in
  rsa_accepts n e (byte_of_Z (s / 256)) (byte_of_Z s) h.

Definition rsa_key_correct (n e d : Z) : bool := forallb (rsa_round n e d) (seqZ 0 n).

(** *** PEM text: header line, key material in hexadecimal, footer line. *)

Definition newline : ascii := "010"%char.

Definition words3 (a b : Z) : list byte :=
  [byte_of_Z (a / 256); byte_of_Z a; byte_of_Z (b / 65536); byte_of_Z (b / 256); byte_of_Z b].

Definition public_material (pk : public_key_object) : list byte :=
  match pk with
  | RSAPublicKey n e => x01 :: words3 n e
  | ECPublicKey x => [x02; byte_of_Z (x / 256); byte_of_Z x]
  end.

Definition private_material (k : private_key_object) : list byte :=
  match k with
  | RSAPrivateKey n e d => x01 :: words3 n e ++ [byte_of_Z (d / 256); byte_of_Z d]
  | ECPrivateKey x => [x02; byte_of_Z (x / 256); byte_of_Z x]
  end.

Definition pem (label : string) (material : list byte) : list byte :=
  str_encode
    (string_of_list_ascii
       (chars "-----BEGIN " ++ chars label ++ chars "-----" ++ newline ::
        chars (bytes_hex material) ++ newline ::
        chars "-----END " ++ chars label ++ chars "-----" ++ [newline])).

Fixpoint until_dash (s : list ascii) : list ascii * list ascii :=
  match s with
  | [] => ([], [])
  | c :: s' =>
      if Ascii.eqb c "-" then ([], s)
      else let '(body, rest) := until_dash s' in (c :: body, rest)
  end.

Definition unpem (label : string) (data : list byte) : outcome (list byte) :=
  let bad := PyExc ValueError "Unable to load PEM file" in
  match strip_prefix (chars "-----BEGIN " ++ chars label ++ chars "-----" ++ [newline])
          (chars (bytes_decode data)) with
  | Some s =>
      let '(body, rest) := until_dash s in
      match strip_prefix (chars "-----END " ++ chars label ++ chars "-----") rest with
      | Some _ =>
          match bytes_fromhex (string_of_list_ascii body) with
          | Return material => Return material
          | Raise _ => Raise bad
          end
      | None => Raise bad
      end
  | None => Raise bad
  end.

Definition word2 (hi lo : byte) : Z := 256 * Z_of_byte hi + Z_of_byte lo.
Definition word3 (b2 b1 b0 : byte) : Z := 65536 * Z_of_byte b2 + 256 * Z_of_byte b1 + Z_of_byte b0.

Definition load_public (data : list byte) : outcome public_key_object :=
  material ← unpem "PUBLIC KEY" data;
  match material with
  | [tag; n1; n0; e2; e1; e0] =>
      if Byte.eqb tag x01 then Return (RSAPublicKey (word2 n1 n0) (word3 e2 e1 e0))
      else Raise (PyExc ValueError "Could not deserialize key data")
  | [tag; x1; x0] =>
      if Byte.eqb tag x02 then Return (ECPublicKey (word2 x1 x0))
      else Raise (PyExc ValueError "Could not deserialize key data")
  | _ => Raise (PyExc ValueError "Could not deserialize key data")
  end.

(** The reference keys are never encrypted, so a password is an error. *)
Definition load_private (data : list byte) (password : option (list byte))
    : outcome private_key_object :=
  match password with
  | Some _ => Raise (PyExc TypeError "Password was given but private key is not encrypted")
  | None =>
      material ← unpem "PRIVATE KEY" data;
      match material with
      | [tag; n1; n0; e2; e1; e0; d1; d0] =>
          if Byte.eqb tag x01
          then Return (RSAPrivateKey (word2 n1 n0) (word3 e2 e1 e0) (word2 d1 d0))
          else Raise (PyExc ValueError "Could not deserialize key data")
      | [tag; x1; x0] =>
          if Byte.eqb tag x02 then Return (ECPrivateKey (word2 x1 x0))
          else Raise (PyExc ValueError "Could not deserialize key data")
      | _ => Raise (PyExc ValueError "Could not deserialize key data")
      end
  end.

#[export] Instance cryptography : Cryptography := {|
  PrivateKey := private_key_object;
  PublicKey := public_key_object;
  Entropy := nat;
  Salt := byte;
  rsa_generate_private_key := generate;
  load_pem_private_key := load_private;
  load_pem_public_key := load_public;
  key_public_key := public_half;
  key_public_bytes pk := pem "PUBLIC KEY" (public_material pk);
  key_sign := sign;
  key_verify := verify;
|}.

(** *** Sample data: the document of the test suite, a processor with a
    generated key, a key file of the second scheme. *)

Definition sample_document : Document :=
  {| id := "0f8fad5b-d9cb-469f-a165-70867728950e";
     parent_document_id := None;
     author_id := 1;
     addressee_id := 2;
     created_at := "2025-01-01T12:00:00";
     content := [ {| fixed_text := "Dear"; placeholder := "name"; text := "John Doe" |};
                  {| fixed_text := "Amount"; placeholder := "value"; text := "1000 USD" |} ] |}.


Definition sample_time : datetime := "2025-01-02T08:30:00".

Definition sample_salt : Salt := x2a.

Definition keyless_processor : DocumentProcessor := {| private_key := None |}.

Definition sample_processor : DocumentProcessor :=
  (generate_keys keyless_processor 7%nat).1.

Definition empty_disk : FileSystem :=
  {| files := ∅; writable := fun _ => true |}.

Definition ec_key_disk : FileSystem :=
  {| files := {[ "ec_key.pem" := pem "PRIVATE KEY" (private_material (ECPrivateKey 513)) ]};
     writable := fun _ => true |}.

(** The artifact signing [sample_document] for signer 42 produces. *)
Definition sample_artifact : Signature :=
  {| document_id := id sample_document;
     json_version := Document_model_dump_json None sample_document;
     signator_id := 42;
     public_key := bytes_decode (key_public_bytes (key_public_key (generate 7)));
     signature :=
       match key_sign (generate 7)
               (str_encode (Document_model_dump_json None sample_document)) sample_salt with
       | Return signature_bytes => bytes_hex signature_bytes
       | Raise _ => EmptyString
       end;
     signed_at := sample_time |}.

(** [registry[42] = K1.public_pem] *)
Definition sample_service : SignedDocumentsService :=
  {| trusted_keys := {[ 42 := public_key sample_artifact ]} |}.

(** [sample_artifact] with the public key of a key of the second scheme. *)
Definition foreign_key_artifact : Signature :=
  {| document_id := document_id sample_artifact;
     json_version := json_version sample_artifact;
     signator_id := signator_id sample_artifact;
     public_key := bytes_decode (key_public_bytes (ECPublicKey 1027));
     signature := signature sample_artifact;
     signed_at := signed_at sample_artifact |}.

(** [sample_artifact] with no signature at all. *)
Definition unsigned_artifact : Signature :=
  {| document_id := document_id sample_artifact;
     json_version := json_version sample_artifact;
     signator_id := signator_id sample_artifact;
     public_key := public_key sample_artifact;
     signature := EmptyString;
     signed_at := signed_at sample_artifact |}.

(** An artifact whose public key is no PEM and whose signature is no
    hexadecimal text. *)
Definition malformed_artifact : Signature :=
  {| document_id := id sample_document;
     json_version := Document_model_dump_json None sample_document;
     signator_id := 42;
     public_key := "not a PEM";
     signature := "zz";
     signed_at := sample_time |}.

(** *** Private key files: written unencrypted; under a password the PEM is
    labelled as encrypted, and the reference loader does not read it back. *)

#[export] Instance private_key_serializer : PrivateKeySerializer := {|
  key_private_bytes k password :=
    match password with
    | None => pem "PRIVATE KEY" (private_material k)
    | Some _ => pem "ENCRYPTED PRIVATE KEY" (private_material k)
    end;
|}.

(** *** More sample data *)

(** A document with another id. *)
Definition other_document : Document :=
  {| id := "7c9e6679-7425-40de-944b-e07fc1f90ae7";
     parent_document_id := Some (id sample_document);
     author_id := 999;
     addressee_id := 888;
     created_at := "2025-03-01T09:00:00";
     content := [ {| fixed_text := "Approved"; placeholder := "amount";
                     text := "9999999 USD" |} ] |}.

(** [sample_artifact] with another payload stored. *)
Definition manipulated_artifact : Signature :=
  {| document_id := document_id sample_artifact;
     json_version := "null";
     signator_id := signator_id sample_artifact;
     public_key := public_key sample_artifact;
     signature := signature sample_artifact;
     signed_at := signed_at sample_artifact |}.

(** The key of [sample_processor]. *)
Definition sample_key : PrivateKey := generate 7.

(** A public key of the second scheme. *)
Definition foreign_public_key : PublicKey := ECPublicKey 1027.

(** The exported PEM of another generated key. *)
Definition second_pem : string :=
  bytes_decode (key_public_bytes (key_public_key (generate 0))).

(** A request that carries the sample key with its line feeds escaped. *)
Definition escaped_request : AddKeyRequest.t :=
  {| AddKeyRequest.signer_id := 42;
     AddKeyRequest.public_key_pem := line_feeds_escaped (public_key sample_artifact) |}.

End Reference.

(** * Properties *)

(** ** Hexadecimal text *)

Lemma bytes_fromhex_hex_cons (x : byte) (rest : string) :
  bytes_fromhex (bytes_hex [x] +:+ rest)
  = match bytes_fromhex rest with
    | Return bs => Return (x :: bs)
    | Raise e => Raise e
    end.
Proof. destruct x; reflexivity. Qed.

Lemma bytes_fromhex_hex (b : list byte) : bytes_fromhex (bytes_hex b) = Return b.
Proof.
  induction b as [|x b IH]; [reflexivity|].
  change (bytes_hex (x :: b)) with (bytes_hex [x] +:+ bytes_hex b).
  by rewrite bytes_fromhex_hex_cons, IH.
Qed.

Lemma str_encode_decode (b : list byte) : str_encode (bytes_decode b) = b.
Proof. apply list_byte_of_string_of_list_byte. Qed.

Lemma str_decode_encode (s : string) : bytes_decode (str_encode s) = s.
Proof. apply string_of_list_byte_of_string. Qed.

Section VerifierFacts.
Context `{PyValues} `{!Pydantic} `{Cryptography} `{JsonLib}.

Lemma verify_signature_total self d a :
  verify_signature self d a = Return true \/ verify_signature self d a = Return false.
Proof.
  unfold verify_signature.
  destruct (verify_signature_try self d a) as [[|]|e]; auto.
  destruct (decide _); auto.
Qed.

Lemma verify_signature_raise self d a e :
  verify_signature_try self d a = Raise e -> verify_signature self d a = Return false.
Proof.
  unfold verify_signature. intros ->. by destruct (decide _).
Qed.

(** The four checks of bare verification, as one equivalence. *)
Lemma verify_signature_true self d a :
  verify_signature self d a = Return true <->
  id d = document_id a /\
  Document_model_dump_json None d = json_version a /\
  exists pk sig,
    load_pem_public_key (str_encode (public_key a)) = Return pk /\
    bytes_fromhex (signature a) = Return sig /\
    key_verify pk sig (str_encode (json_version a)) = Return tt.
Proof.
  unfold verify_signature, verify_signature_try, _document_to_canonical_json.
  split.
  - destruct (bool_decide (id d = document_id a)) eqn:Eid; simpl; [|done].
    apply bool_decide_eq_true in Eid.
    destruct (load_pem_public_key _) as [pk|e] eqn:Epk; simpl;
      [|by destruct (decide _)].
    destruct (String.eqb _ _) eqn:Ejs; simpl; [|done].
    apply String.eqb_eq in Ejs.
    destruct (bytes_fromhex _) as [sig|e] eqn:Ehex; simpl;
      [|by destruct (decide _)].
    destruct (key_verify _ _ _) as [[]|e] eqn:Ev; simpl;
      [|by destruct (decide _)].
    intros _. split; [done|]. split; [done|]. by exists pk, sig.
  - intros (Eid & Ejs & pk & sig & Epk & Ehex & Ev).
    rewrite bool_decide_eq_true_2 by done. simpl.
    rewrite Epk. simpl.
    rewrite (proj2 (String.eqb_eq _ _) Ejs). simpl.
    rewrite Ehex. simpl. rewrite Ev. done.
Qed.

End VerifierFacts.

Section ServiceFacts.
Context `{PyValues} `{!Pydantic} `{Cryptography} `{JsonLib}.

Lemma verify_document_signature_total (self : SignedDocumentsService) d a :
  verify_document_signature self d a = Return true \/
  verify_document_signature self d a = Return false.
Proof.
  unfold verify_document_signature.
  destruct (verify_document_signature_try self d a) as [[|]|e]; auto.
  destruct (decide _); auto.
Qed.

(** Registry-backed verification accepts exactly when the signer's
    registered key is the artifact's key and the four bare checks pass. *)
Lemma verify_document_signature_true (self : SignedDocumentsService) d a :
  verify_document_signature self d a = Return true <->
  trusted_keys self !! signator_id a = Some (public_key a) /\
  id d = document_id a /\
  Document_model_dump_json None d = json_version a /\
  exists pk sig,
    load_pem_public_key (str_encode (public_key a)) = Return pk /\
    bytes_fromhex (signature a) = Return sig /\
    key_verify pk sig (str_encode (json_version a)) = Return tt.
Proof.
  unfold verify_document_signature, verify_document_signature_try.
  split.
  - destruct (bool_decide (is_Some _)) eqn:Ein; simpl; [|done].
    apply bool_decide_eq_true in Ein. destruct Ein as [pem Ereg].
    rewrite Ereg. simpl.
    destruct (bool_decide (id d = document_id a)) eqn:Eid; simpl; [|done].
    apply bool_decide_eq_true in Eid.
    destruct (String.eqb (public_key a) pem) eqn:Epem; simpl; [|done].
    apply String.eqb_eq in Epem. subst pem.
    destruct (load_pem_public_key _) as [pk|e] eqn:Epk; simpl;
      [|by destruct (decide _)].
    destruct (String.eqb _ _) eqn:Ejs; simpl; [|done].
    apply String.eqb_eq in Ejs.
    destruct (bytes_fromhex _) as [sig|e] eqn:Ehex; simpl;
      [|by destruct (decide _)].
    destruct (key_verify _ _ _) as [[]|e] eqn:Ev; simpl;
      [|by destruct (decide _)].
    intros _. do 3 (split; [done|]). by exists pk, sig.
  - intros (Ereg & Eid & Ejs & pk & sig & Epk & Ehex & Ev).
    rewrite Ereg. rewrite bool_decide_eq_true_2 by eauto. simpl.
    rewrite bool_decide_eq_true_2 by done. simpl.
    rewrite String.eqb_refl. simpl. rewrite Epk. simpl.
    rewrite (proj2 (String.eqb_eq _ _) Ejs). simpl.
    rewrite Ehex. simpl. rewrite Ev. done.
Qed.

Lemma verify_document_signature_not_true (self : SignedDocumentsService) d a :
  verify_document_signature self d a <> Return true ->
  verify_document_signature self d a = Return false.
Proof. destruct (verify_document_signature_total self d a); congruence. Qed.

End ServiceFacts.

Section SignerFacts.
Context `{PyValues} `{!Pydantic} `{Cryptography} `{JsonLib}.

(** With a key configured, signing is the library's signing call followed
    by assembling the artifact. *)
Lemma sign_document_with_key (self : DocumentProcessor) k d signer salt now :
  private_key self = Some k ->
  sign_document self d signer salt now
  = match key_sign k (str_encode (Document_model_dump_json None d)) salt with
    | Return signature_bytes =>
        Return {| document_id := id d;
                  json_version := Document_model_dump_json None d;
                  signator_id := signer;
                  public_key := bytes_decode (key_public_bytes (key_public_key k));
                  signature := bytes_hex signature_bytes;
                  signed_at := now |}
    | Raise e => Raise e
    end.
Proof.
  intros Hk. unfold sign_document, get_public_key_pem, _document_to_canonical_json.
  rewrite Hk. by destruct (key_sign _ _ _).
Qed.

Lemma sign_document_without_key (self : DocumentProcessor) d signer salt now :
  private_key self = None ->
  sign_document self d signer salt now = Raise (PyExc ValueError "No private key loaded").
Proof. intros Hk. unfold sign_document. by rewrite Hk. Qed.

(** What a returned artifact binds. *)
Lemma sign_document_binds (self : DocumentProcessor) d signer salt now a :
  sign_document self d signer salt now = Return a ->
  document_id a = id d /\ json_version a = Document_model_dump_json None d.
Proof.
  destruct (private_key self) as [k|] eqn:Hk.
  - rewrite (sign_document_with_key self k) by done.
    destruct (key_sign _ _ _); [|done]. by intros [= <-].
  - by rewrite sign_document_without_key.
Qed.


End SignerFacts.

Section Claims.
Context `{PyValues} `{!Pydantic} `{Cryptography} `{JsonLib}.

(** C3. Bare verification is fail-closed: [verify_signature] always returns
    a boolean and never raises, and every failure inside it (an exception of
    any class in the [try] block, a mismatched document id, a public key
    that does not parse, a signature string [bytes.fromhex] rejects, a
    verify call that raises, as it does for a signature that does not match
    or a key of another scheme) makes it return [False]. *)
Theorem verify_signature_fail_closed (self : DocumentProcessor) (d : Document) (a : Signature) :
  (verify_signature self d a = Return true \/ verify_signature self d a = Return false) /\
  (forall e, verify_signature_try self d a = Raise e ->
             verify_signature self d a = Return false) /\
  (id d <> document_id a -> verify_signature self d a = Return false) /\
  (forall e, load_pem_public_key (str_encode (public_key a)) = Raise e ->
             verify_signature self d a = Return false) /\
  (forall e, bytes_fromhex (signature a) = Raise e ->
             verify_signature self d a = Return false) /\
  (forall pk sig e,
      load_pem_public_key (str_encode (public_key a)) = Return pk ->
      bytes_fromhex (signature a) = Return sig ->
      key_verify pk sig (str_encode (json_version a)) = Raise e ->
      verify_signature self d a = Return false).
Proof.
  assert (Hnot : verify_signature self d a <> Return true ->
                 verify_signature self d a = Return false).
  { destruct (verify_signature_total self d a); congruence. }
  split; [apply verify_signature_total|].
  split; [apply verify_signature_raise|].
  repeat split.
  - intros Hne. apply Hnot. rewrite verify_signature_true. tauto.
  - intros e He. apply Hnot. rewrite verify_signature_true.
    intros (_ & _ & pk & sig & Epk & _). congruence.
  - intros e He. apply Hnot. rewrite verify_signature_true.
    intros (_ & _ & pk & sig & _ & Ehex & _). congruence.
  - intros pk sig e Epk Ehex Ev. apply Hnot. rewrite verify_signature_true.
    intros (_ & _ & pk' & sig' & Epk' & Ehex' & Ev'). congruence.
Qed.

(** C4. Registry gating: [verify_document_signature] returns [False]
    whenever the artifact's [signator_id] is not in [trusted_keys], whatever
    bare verification says; it returns [True] exactly when bare verification
    returns [True] and the key registered for [signator_id] is the very
    string [public_key] of the artifact; any other registered key gives
    [False]. *)
Theorem registry_gating (proc : DocumentProcessor) (self : SignedDocumentsService)
    (d : Document) (a : Signature) :
  (trusted_keys self !! signator_id a = None ->
   verify_document_signature self d a = Return false) /\
  (verify_document_signature self d a = Return true <->
   verify_signature proc d a = Return true /\
   get_trusted_key self (signator_id a) = Some (public_key a)) /\
  (forall pem, trusted_keys self !! signator_id a = Some pem ->
               pem <> public_key a ->
               verify_document_signature self d a = Return false).
Proof.
  split; [|split].
  - intros Hnone. apply verify_document_signature_not_true.
    rewrite verify_document_signature_true. intros [Hreg _]. congruence.
  - unfold get_trusted_key.
    rewrite verify_document_signature_true, (verify_signature_true proc). tauto.
  - intros pem Hreg Hne. apply verify_document_signature_not_true.
    rewrite verify_document_signature_true. intros [Hreg' _]. congruence.
Qed.

(** C5. Registry removal: [remove_trusted_key] returns [True] and deletes
    the entry (and only that entry) when the signer is present, returns
    [False] and leaves the service as it was when the signer is absent; and
    once the signer of an artifact that verified against the registry is
    removed, the same verification returns [False]. *)
Theorem registry_removal (self : SignedDocumentsService) (signer_id : Z) :
  (is_Some (trusted_keys self !! signer_id) ->
   (remove_trusted_key self signer_id).2 = true /\
   trusted_keys (remove_trusted_key self signer_id).1 !! signer_id = None /\
   (forall other, other <> signer_id ->
      trusted_keys (remove_trusted_key self signer_id).1 !! other
      = trusted_keys self !! other)) /\
  (trusted_keys self !! signer_id = None ->
   remove_trusted_key self signer_id = (self, false)) /\
  (forall (d : Document) (a : Signature),
      signator_id a = signer_id ->
      verify_document_signature self d a = Return true ->
      (remove_trusted_key self signer_id).2 = true /\
      verify_document_signature (remove_trusted_key self signer_id).1 d a
      = Return false).
Proof.
  unfold remove_trusted_key. split; [|split].
  - intros Hin. rewrite bool_decide_eq_true_2 by done. simpl.
    split; [done|]. split; [apply lookup_delete_eq|].
    intros other Hne. by apply lookup_delete_ne.
  - intros Hnone. rewrite bool_decide_eq_false_2; [done|].
    rewrite Hnone. by intros [? ?].
  - intros d a <- Hv.
    pose proof (proj1 (verify_document_signature_true self d a) Hv) as [Hreg _].
    rewrite bool_decide_eq_true_2 by eauto. simpl. split; [done|].
    apply verify_document_signature_not_true.
    rewrite verify_document_signature_true. simpl.
    rewrite lookup_delete_eq. intros [? _]. done.
Qed.

(** C8. Bare verification does not read [signator_id] or [signed_at]:
    replacing either (or both) in an artifact leaves the result of
    [verify_signature] unchanged.  (The trusted-key registry is not even an
    argument of [verify_signature].) *)
Theorem verify_signature_ignores_signer_and_time (self : DocumentProcessor)
    (d : Document) (a : Signature) (signer' : Z) (time' : datetime) :
  verify_signature self d
    {| document_id := document_id a; json_version := json_version a;
       signator_id := signer'; public_key := public_key a;
       signature := signature a; signed_at := time' |}
  = verify_signature self d a.
Proof. reflexivity. Qed.

(** C9. Registry add: when the PEM does not parse as a public key,
    [add_trusted_key] raises [ValueError] to its caller and the service is
    unchanged; when it parses, the call returns and the registry maps
    [signer_id] to the new PEM, whatever was registered before, and every
    other signer as before.  A registry holds at most one key per signer. *)
Theorem registry_add (self : SignedDocumentsService) (signer_id : Z) (pem : string) :
  (forall e, load_pem_public_key (str_encode pem) = Raise e ->
     add_trusted_key self signer_id pem
     = (self, Raise (PyExc ValueError ("Invalid public key format: " ++ exn_str e)))) /\
  (forall pk, load_pem_public_key (str_encode pem) = Return pk ->
     (add_trusted_key self signer_id pem).2 = Return tt /\
     get_trusted_key (add_trusted_key self signer_id pem).1 signer_id = Some pem /\
     (forall other, other <> signer_id ->
        get_trusted_key (add_trusted_key self signer_id pem).1 other
        = get_trusted_key self other)) /\
  (forall k1 k2, get_trusted_key (add_trusted_key self signer_id pem).1 signer_id = Some k1 ->
                 get_trusted_key (add_trusted_key self signer_id pem).1 signer_id = Some k2 ->
                 k1 = k2).
Proof.
  unfold add_trusted_key, get_trusted_key. split; [|split].
  - by intros e ->.
  - intros pk ->. simpl. split; [done|]. split; [apply lookup_insert_eq|].
    intros other Hne. by apply lookup_insert_ne.
  - intros k1 k2 Hk1 Hk2. congruence.
Qed.

(** C10. A processor constructed with the path of a file that does not
    exist is constructed without error and has no private key, exactly like
    one constructed without a path; the missing key shows only later:
    [sign_document] and [get_public_key_pem] raise [ValueError]. *)
Theorem init_with_missing_key_file (fs : FileSystem) (path : string) :
  path_exists fs path = false ->
  DocumentProcessor_init fs (Some path) = Return {| private_key := None |} /\
  DocumentProcessor_init fs (Some path) = DocumentProcessor_init fs None /\
  forall self, DocumentProcessor_init fs (Some path) = Return self ->
    (forall d signer salt now,
       sign_document self d signer salt now
       = Raise (PyExc ValueError "No private key loaded")) /\
    get_public_key_pem self = Raise (PyExc ValueError "No private key available").
Proof.
  intros Hmissing. unfold DocumentProcessor_init. rewrite Hmissing.
  rewrite andb_false_r. split; [done|]. split; [done|].
  intros self [= <-]. done.
Qed.

(** C1. Sign/verify round trip: with a generated RSA key in the processor,
    signing any document for any signer returns an artifact, and bare
    verification of the same document against that artifact returns
    [True]. *)
Theorem sign_then_verify (self : DocumentProcessor) (k : PrivateKey)
    (d : Document) (signer : Z) (salt : Salt) (now : datetime) :
  rsa_sign_returns -> rsa_verify_accepts -> public_pem_round_trip ->
  private_key self = Some k ->
  generated k ->
  exists a, sign_document self d signer salt now = Return a /\
            verify_signature self d a = Return true.
Proof.
  intros Hsigns Haccepts Hpem Hk Hgen.
  destruct (Hsigns k (str_encode (Document_model_dump_json None d)) salt Hgen)
    as [sig Hsig].
  rewrite (sign_document_with_key self k) by done. rewrite Hsig.
  eexists. split; [reflexivity|].
  apply verify_signature_true. simpl.
  split; [done|]. split; [done|].
  exists (key_public_key k), sig.
  rewrite str_encode_decode, bytes_fromhex_hex. eauto.
Qed.


(** C6. Persistence: saving a (document, artifact) pair to a writable path
    returns, loading that path back returns a pair, and bare verification
    of the loaded pair gives what it gives on the saved pair. *)
Theorem save_then_load_preserves_verification (self : DocumentProcessor)
    (fs : FileSystem) (d : Document) (a : Signature) (filename : string) :
  Document_json_round_trip -> Signature_json_round_trip -> json_dumps_round_trip ->
  writable fs filename = true ->
  exists fs' d' a',
    save_document_signature_pair self fs d a filename = Return fs' /\
    load_document_signature_pair self fs' filename = Return (d', a') /\
    verify_signature self d' a' = verify_signature self d a.
Proof.
  intros Hdoc Hsig Hjson Hw.
  destruct (Hdoc d) as (jd & kwd & d' & Hjd & Hkwd & Hd' & Hid & Hdump).
  destruct (Hsig a) as (js & kws & a' & Hjs & Hkws & Ha' & Hdi & Hjv & _ & Hpk & Hsg).
  unfold save_document_signature_pair, load_document_signature_pair,
    read_text, read_bytes, write_text.
  rewrite Hjd, Hjs, Hw. simpl.
  eexists _, d', a'. split; [reflexivity|]. simpl.
  rewrite lookup_insert_eq. simpl.
  rewrite str_decode_encode, (Hjson _ _ _ _ Hjd Hjs). simpl.
  rewrite Hkwd. simpl. rewrite Hd'. simpl. rewrite Hkws. simpl. rewrite Ha'.
  split; [reflexivity|].
  unfold verify_signature, verify_signature_try, _document_to_canonical_json.
  by rewrite Hid, Hdump, Hdi, Hjv, Hpk, Hsg.
Qed.

(** C7 (amended). Signing with no private key configured raises
    [ValueError("No private key loaded")].  With a key configured the
    signer adds no check of its own: it returns an artifact exactly when the
    library's RSA-PSS signing call returns, and raises what that call
    raises otherwise; with a generated RSA key the call returns, so signing
    any document returns an artifact. *)
Theorem sign_document_precondition (self : DocumentProcessor) (d : Document)
    (signer : Z) (salt : Salt) (now : datetime) :
  rsa_sign_returns ->
  (private_key self = None ->
   sign_document self d signer salt now
   = Raise (PyExc ValueError "No private key loaded")) /\
  (forall k, private_key self = Some k ->
     (returns (sign_document self d signer salt now) <->
      returns (key_sign k (str_encode (Document_model_dump_json None d)) salt)) /\
     (forall e, sign_document self d signer salt now = Raise e <->
                key_sign k (str_encode (Document_model_dump_json None d)) salt = Raise e)) /\
  (forall k, private_key self = Some k -> generated k ->
     exists a, sign_document self d signer salt now = Return a /\
               document_id a = id d /\ signator_id a = signer).
Proof.
  intros Hsigns. split; [apply sign_document_without_key|]. split.
  - intros k Hk. rewrite (sign_document_with_key self k) by done.
    unfold returns. destruct (key_sign _ _ _) as [sig|e0]; simpl.
    + split; [split; eauto|]. intros e. split; discriminate.
    + split; [split; intros [? ?]; discriminate|]. intros e. split; by intros [= ->].
  - intros k Hk Hgen. rewrite (sign_document_with_key self k) by done.
    destruct (Hsigns k (str_encode (Document_model_dump_json None d)) salt Hgen)
      as [sig ->].
    eexists. split; [reflexivity|]. done.
Qed.

End Claims.

(** * Further properties of the package *)

Lemma bytes_hex_length (b : list byte) :
  String.length (bytes_hex b) = (2 * length b)%nat.
Proof. induction b as [|x b IH]; [reflexivity|]. cbn [bytes_hex String.length length]. lia. Qed.

Section ProcessorProperties.
Context `{PyValues} `{!Pydantic} `{Cryptography} `{!PrivateKeySerializer} `{JsonLib}.

(** X1. Wrong-document replay: an artifact made for one document is rejected for
    every document with another id, whoever verifies and whatever the
    libraries do. *)
Theorem replayed_artifact_rejected (self verifier : DocumentProcessor)
    (d other : Document) (signer : Z) (salt : Salt) (now : datetime) (a : Signature) :
  sign_document self d signer salt now = Return a ->
  id other <> id d ->
  verify_signature verifier other a = Return false.
Proof.
  intros Hsign Hne.
  destruct (sign_document_binds _ _ _ _ _ _ Hsign) as [Hid _].
  destruct (verify_signature_total verifier other a) as [Ht|Hf]; [|done].
  apply verify_signature_true in Ht as (Hid' & _). congruence.
Qed.

(** X2. What acceptance guarantees: the artifact names this document, its stored
    payload is this document's canonical JSON, its key is loadable PEM and
    its signature is hexadecimal text. *)
Theorem accepted_artifact_is_bound (self : DocumentProcessor) (d : Document) (a : Signature) :
  verify_signature self d a = Return true ->
  document_id a = id d /\
  json_version a = _document_to_canonical_json self d /\
  returns (load_pem_public_key (str_encode (public_key a))) /\
  returns (bytes_fromhex (signature a)).
Proof.
  intros Hv. apply verify_signature_true in Hv as (Hid & Hjs & pk & sig & Hpk & Hhex & _).
  unfold returns, _document_to_canonical_json.
  split; [done|]. split; [done|]. split; eauto.
Qed.

(** X3. An artifact whose stored payload is not the canonical JSON of the
    document is rejected, whatever its signature. *)
Theorem manipulated_json_version_rejected (self : DocumentProcessor) (d : Document)
    (a : Signature) :
  json_version a <> _document_to_canonical_json self d ->
  verify_signature self d a = Return false.
Proof.
  intros Hne. destruct (verify_signature_total self d a) as [Ht|Hf]; [|done].
  apply verify_signature_true in Ht as (_ & Hjs & _). done.
Qed.

(** X4. What a returned artifact holds: the id and canonical JSON of the
    document, the signer it was asked for, the time read, the PEM
    [get_public_key_pem] exports, and the library's signature as lower-case
    hexadecimal text of twice its length, from which [bytes.fromhex] gives the
    signature bytes back. *)
Theorem signed_artifact_contents (self : DocumentProcessor) (d : Document)
    (signer : Z) (salt : Salt) (now : datetime) (a : Signature) :
  sign_document self d signer salt now = Return a ->
  document_id a = id d /\
  json_version a = _document_to_canonical_json self d /\
  signator_id a = signer /\
  signed_at a = now /\
  get_public_key_pem self = Return (public_key a) /\
  exists k signature_bytes,
    private_key self = Some k /\
    key_sign k (str_encode (json_version a)) salt = Return signature_bytes /\
    bytes_fromhex (signature a) = Return signature_bytes /\
    String.length (signature a) = (2 * length signature_bytes)%nat.
Proof.
  destruct (private_key self) as [k|] eqn:Hk;
    [|by rewrite sign_document_without_key].
  rewrite (sign_document_with_key self k) by done.
  destruct (key_sign _ _ _) as [sig|e] eqn:Hsig; [|done].
  intros [= <-]. cbn. unfold get_public_key_pem. rewrite Hk.
  do 5 (split; [done|]). exists k, sig.
  by rewrite bytes_fromhex_hex, bytes_hex_length.
Qed.

(** X5. [save_private_key] returns exactly when a key is configured and the path
    can be written; without a key it raises [ValueError]. *)
Theorem save_private_key_returns_iff (self : DocumentProcessor) (fs : FileSystem)
    (filename : string) (password : option string) :
  (returns (save_private_key self fs filename password) <->
   is_Some (private_key self) /\ writable fs filename = true) /\
  (private_key self = None ->
   save_private_key self fs filename password
   = Raise (PyExc ValueError "No private key to save")).
Proof.
  unfold save_private_key, write_bytes, returns.
  destruct (private_key self) as [k|]; cbn.
  - destruct (writable fs filename); split; try done; split.
    + eauto.
    + intros _. eauto.
    + intros [? ?]. done.
    + intros [_ ?]. done.
  - split; [|done]. split; [intros [? ?]; done | intros [[? ?] _]; done].
Qed.

(** X6. Key persistence: after [save_private_key] to a writable path,
    [load_private_key] of that path with the same password configures the
    saved key again, provided the library reads back the PEM it wrote under
    that password; no other file changes.  An empty password counts as no
    password on both sides. *)
Theorem save_then_load_private_key (self loader : DocumentProcessor) (k : PrivateKey)
    (fs : FileSystem) (filename : string) (password : option string) :
  private_key self = Some k ->
  writable fs filename = true ->
  load_pem_private_key (key_private_bytes k (password_bytes password))
    (password_bytes password) = Return k ->
  exists fs',
    save_private_key self fs filename password = Return fs' /\
    load_private_key loader fs' filename password
    = Return ({| private_key := Some k |}, k) /\
    (forall other, other <> filename -> files fs' !! other = files fs !! other).
Proof.
  intros Hk Hw Hpem. unfold save_private_key, write_bytes. rewrite Hk, Hw.
  eexists. split; [reflexivity|]. split.
  - unfold load_private_key, read_bytes. cbn. rewrite lookup_insert_eq. cbn.
    fold (password_bytes password). by rewrite Hpem.
  - intros other Hne. cbn. by rewrite lookup_insert_ne.
Qed.

(** X7. A processor constructed with the path of an existing file loads that file
    without a password: it has the key the library reads, and if the library
    rejects the file (corrupt, or password-protected) the constructor raises
    that error.  An empty path is no path. *)
Theorem init_with_existing_key_file (fs : FileSystem) (path : string) (data : list byte) :
  files fs !! path = Some data ->
  path <> EmptyString ->
  (forall k, load_pem_private_key data None = Return k ->
             DocumentProcessor_init fs (Some path) = Return {| private_key := Some k |}) /\
  (forall e, load_pem_private_key data None = Raise e ->
             DocumentProcessor_init fs (Some path) = Raise e) /\
  DocumentProcessor_init fs (Some EmptyString) = Return {| private_key := None |}.
Proof.
  intros Hfile Hpath. unfold DocumentProcessor_init, path_exists, load_private_key, read_bytes.
  rewrite Hfile, bool_decide_eq_true_2 by eauto.
  destruct path as [|c path]; [done|]. cbn.
  split; [|split]; [intros k -> | intros e -> |]; done.
Qed.

(** X8. Loading the pair file fails before anything is validated when the file
    is missing ([FileNotFoundError]), when its JSON is not an object
    ([TypeError]) and when the object has no [document] entry ([KeyError]). *)
Theorem load_document_signature_pair_errors (self : DocumentProcessor)
    (fs : FileSystem) (filename : string) :
  (files fs !! filename = None ->
   load_document_signature_pair self fs filename
   = Raise (PyExc FileNotFoundError filename)) /\
  (forall txt j,
     read_text fs filename = Return txt -> json_loads txt = Return j ->
     (forall kvs, j <> JDict kvs) ->
     exists msg, load_document_signature_pair self fs filename
                 = Raise (PyExc TypeError msg)) /\
  (forall txt kvs,
     read_text fs filename = Return txt -> json_loads txt = Return (JDict kvs) ->
     dict_get kvs "document" = None ->
     load_document_signature_pair self fs filename
     = Raise (PyExc KeyError "document")).
Proof.
  unfold load_document_signature_pair. split; [|split].
  - intros Hnone. unfold read_text, read_bytes. by rewrite Hnone.
  - intros txt j -> Hj Hnd. cbn. rewrite Hj. cbn.
    destruct j; cbn; eauto. by destruct (Hnd kvs).
  - intros txt kvs -> Hj Hnone. cbn. rewrite Hj. cbn. by rewrite Hnone.
Qed.

End ProcessorProperties.

Section RegistryProperties.
Context `{PyValues} `{!Pydantic} `{Cryptography} `{JsonLib}.

(** Registry-backed verification reads one entry of the registry, that of
    the artifact's signer. *)
Lemma verify_document_signature_entry (self other : SignedDocumentsService) d a :
  trusted_keys self !! signator_id a = trusted_keys other !! signator_id a ->
  verify_document_signature self d a = verify_document_signature other d a.
Proof.
  unfold verify_document_signature, verify_document_signature_try. by intros ->.
Qed.

Lemma add_trusted_key_valid (self : SignedDocumentsService) signer pem pk :
  load_pem_public_key (str_encode pem) = Return pk ->
  add_trusted_key self signer pem
  = ({| trusted_keys := <[signer := pem]> (trusted_keys self) |}, Return tt).
Proof. unfold add_trusted_key. by intros ->. Qed.

(** X9. The PEM a processor with a generated key exports is accepted by the
    registry and becomes the signer's entry. *)
Theorem exported_pem_is_accepted (proc : DocumentProcessor) (k : PrivateKey)
    (service : SignedDocumentsService) (signer : Z) :
  public_pem_round_trip ->
  private_key proc = Some k ->
  generated k ->
  exists pem,
    get_public_key_pem proc = Return pem /\
    (add_trusted_key service signer pem).2 = Return tt /\
    get_trusted_key (add_trusted_key service signer pem).1 signer = Some pem.
Proof.
  intros Hpem Hk Hgen. unfold get_public_key_pem. rewrite Hk.
  eexists. split; [reflexivity|].
  erewrite add_trusted_key_valid by (rewrite str_encode_decode; by apply Hpem).
  split; [done|]. apply lookup_insert_eq.
Qed.

(** X10. The whole path: sign with a generated key, register the processor's
    exported PEM for the signer, and registry-backed verification of the
    signed document returns [True]; an artifact the same processor makes for
    a signer that is not registered is rejected. *)
Theorem signed_and_registered_verifies (proc : DocumentProcessor) (k : PrivateKey)
    (service : SignedDocumentsService) (d : Document) (signer : Z) (salt : Salt)
    (now : datetime) :
  rsa_sign_returns -> rsa_verify_accepts -> public_pem_round_trip ->
  private_key proc = Some k ->
  generated k ->
  exists a pem,
    sign_document proc d signer salt now = Return a /\
    get_public_key_pem proc = Return pem /\
    verify_document_signature (add_trusted_key service signer pem).1 d a = Return true /\
    (forall stranger salt' now' a',
       stranger <> signer ->
       trusted_keys service !! stranger = None ->
       sign_document proc d stranger salt' now' = Return a' ->
       verify_document_signature (add_trusted_key service signer pem).1 d a'
       = Return false).
Proof.
  intros Hsigns Haccepts Hpem Hk Hgen.
  destruct (Hsigns k (str_encode (Document_model_dump_json None d)) salt Hgen)
    as [sig Hsig].
  rewrite (sign_document_with_key proc k) by done. rewrite Hsig.
  unfold get_public_key_pem. rewrite Hk.
  eexists _, _. split; [reflexivity|]. split; [reflexivity|].
  erewrite add_trusted_key_valid by (rewrite str_encode_decode; by apply Hpem).
  split.
  - apply verify_document_signature_true.
    cbn [document_id json_version signator_id public_key signature trusted_keys fst].
    split; [apply lookup_insert_eq|]. split; [done|]. split; [done|].
    exists (key_public_key k), sig.
    rewrite str_encode_decode, bytes_fromhex_hex. eauto.
  - intros stranger salt' now' a' Hne Hnone Hsign'.
    rewrite (sign_document_with_key proc k) in Hsign' by done.
    destruct (key_sign k _ salt') as [sig'|e]; [|done].
    injection Hsign' as <-.
    apply verify_document_signature_not_true.
    rewrite verify_document_signature_true.
    cbn [document_id json_version signator_id public_key signature trusted_keys fst].
    rewrite lookup_insert_ne by done. intros [Hreg _]. congruence.
Qed.

(** X11. Key rotation: once a signer is registered again with another valid key,
    every artifact that carries a different key for that signer is rejected,
    also one that verified before. *)
Theorem rotated_key_rejects_old_artifacts (self : SignedDocumentsService)
    (d : Document) (a : Signature) (pem : string) :
  returns (load_pem_public_key (str_encode pem)) ->
  pem <> public_key a ->
  verify_document_signature (add_trusted_key self (signator_id a) pem).1 d a
  = Return false.
Proof.
  intros [pk Hpk] Hne. rewrite (add_trusted_key_valid _ _ _ pk) by done.
  apply verify_document_signature_not_true.
  rewrite verify_document_signature_true. cbn.
  rewrite lookup_insert_eq. intros [[=] _]. done.
Qed.

(** X12. Adding or removing the key of one signer does not change the outcome of
    verification for artifacts of any other signer. *)
Theorem other_signers_unaffected (self : SignedDocumentsService) (d : Document)
    (a : Signature) (signer : Z) (pem : string) :
  signer <> signator_id a ->
  verify_document_signature (add_trusted_key self signer pem).1 d a
  = verify_document_signature self d a /\
  verify_document_signature (remove_trusted_key self signer).1 d a
  = verify_document_signature self d a.
Proof.
  intros Hne. split; apply verify_document_signature_entry.
  - unfold add_trusted_key. destruct (load_pem_public_key _); [|done].
    cbn. by rewrite lookup_insert_ne.
  - unfold remove_trusted_key. destruct (bool_decide _); [|done].
    cbn. by rewrite lookup_delete_ne.
Qed.

(** X13. Removing twice: the second [remove_trusted_key] returns [False] and
    changes nothing.  Adding a valid key for a signer that was absent and
    removing it again gives back the registry as it was. *)
Theorem remove_trusted_key_twice (self : SignedDocumentsService) (signer : Z) (pem : string) :
  remove_trusted_key (remove_trusted_key self signer).1 signer
  = ((remove_trusted_key self signer).1, false) /\
  (returns (load_pem_public_key (str_encode pem)) ->
   trusted_keys self !! signer = None ->
   remove_trusted_key (add_trusted_key self signer pem).1 signer = (self, true)).
Proof.
  split.
  - unfold remove_trusted_key.
    destruct (bool_decide (is_Some (trusted_keys self !! signer))) eqn:Hin; cbn.
    + rewrite bool_decide_eq_false_2; [done|]. rewrite lookup_delete_eq. by intros [? ?].
    + by rewrite Hin.
  - intros [pk Hpk] Hnone. rewrite (add_trusted_key_valid _ _ _ pk) by done.
    unfold remove_trusted_key. cbn.
    rewrite bool_decide_eq_true_2 by (rewrite lookup_insert_eq; eauto).
    rewrite delete_insert_id by done. by destruct self.
Qed.

(** X14. Adding a second valid key for a signer leaves the registry as if only
    the second had been added: the first is gone. *)
Theorem add_trusted_key_overwrites (self : SignedDocumentsService) (signer : Z)
    (first second : string) :
  returns (load_pem_public_key (str_encode first)) ->
  returns (load_pem_public_key (str_encode second)) ->
  (add_trusted_key (add_trusted_key self signer first).1 signer second).1
  = (add_trusted_key self signer second).1.
Proof.
  intros [pk1 Hfirst] [pk2 Hsecond].
  rewrite (add_trusted_key_valid self _ first pk1) by done. cbn.
  rewrite !(add_trusted_key_valid _ _ second pk2) by done. cbn.
  by rewrite insert_insert_eq.
Qed.

(** X15. [list_trusted_signers] lists exactly the signers [get_trusted_key] finds,
    each once, and as many as the registry has entries; a successful add of
    a signer that was absent makes the list one longer. *)
Theorem list_trusted_signers_spec (self : SignedDocumentsService) :
  (forall signer, signer ∈ list_trusted_signers self <->
                  is_Some (get_trusted_key self signer)) /\
  NoDup (list_trusted_signers self) /\
  length (list_trusted_signers self) = size (trusted_keys self) /\
  (forall signer pem,
     returns (load_pem_public_key (str_encode pem)) ->
     get_trusted_key self signer = None ->
     length (list_trusted_signers (add_trusted_key self signer pem).1)
     = S (length (list_trusted_signers self))).
Proof.
  unfold list_trusted_signers, get_trusted_key. split; [|split; [|split]].
  - intros signer. rewrite list_elem_of_fmap. split.
    + intros [[i x] [-> Hin]]. apply elem_of_map_to_list in Hin. cbn. eauto.
    + intros [x Hx]. exists (signer, x). split; [done|]. by apply elem_of_map_to_list.
  - apply NoDup_fst_map_to_list.
  - by rewrite length_fmap, length_map_to_list.
  - intros signer pem [pk Hpk] Hnone.
    rewrite (add_trusted_key_valid _ _ _ pk) by done. cbn.
    rewrite !length_fmap, !length_map_to_list. by apply map_size_insert_None.
Qed.

End RegistryProperties.

Section CryptoUtilsProperties.
Context `{Cryptography} `{!PrivateKeySerializer}.

(** X16. [crypto_utils.verify_signature] is not fail-closed: it returns [True]
    when the library accepts, [False] when the library raises
    [InvalidSignature], and lets every other exception out to its caller. *)
Theorem crypto_utils_verify_signature_outcomes (text : string)
    (signature_bytes : list byte) (pk : PublicKey) :
  (crypto_utils.verify_signature text signature_bytes pk = Return true <->
   key_verify pk signature_bytes (str_encode text) = Return tt) /\
  (crypto_utils.verify_signature text signature_bytes pk = Return false <->
   exists e, key_verify pk signature_bytes (str_encode text) = Raise e /\
             exn_class e = InvalidSignature) /\
  (forall e, crypto_utils.verify_signature text signature_bytes pk = Raise e <->
             key_verify pk signature_bytes (str_encode text) = Raise e /\
             exn_class e <> InvalidSignature).
Proof.
  unfold crypto_utils.verify_signature.
  destruct (key_verify pk signature_bytes (str_encode text)) as [[]|e0]; cbn.
  - split; [done|]. split; [split; [done | by intros (? & ? & _)]|].
    intros e. split; [done | by intros [? _]].
  - destruct (decide (exn_class e0 = InvalidSignature)) as [Hc|Hc].
    + split; [done|]. split; [split; eauto|].
      intros e. split; [done|]. intros [[= ->] ?]. done.
    + split; [done|]. split.
      * split; [done|]. intros (e & [= ->] & ?). done.
      * intros e. split; [by intros [= ->] | by intros [[= ->] _]].
Qed.

(** X17. Text signed with a generated key verifies under its public half. *)
Theorem sign_text_then_verify (text : string) (k : PrivateKey) (salt : Salt) :
  rsa_sign_returns -> rsa_verify_accepts ->
  generated k ->
  exists signature_bytes,
    crypto_utils.sign_text text k salt = Return signature_bytes /\
    crypto_utils.verify_signature text signature_bytes (key_public_key k) = Return true.
Proof.
  intros Hsigns Haccepts Hgen.
  destruct (Hsigns k (str_encode text) salt Hgen) as [sig Hsig].
  exists sig. split; [done|].
  unfold crypto_utils.verify_signature. by rewrite (Haccepts k _ salt sig Hgen Hsig).
Qed.

(** X18. Keys saved to two different writable files load back and still work
    together: text signed with the loaded private key verifies under the
    loaded public key. *)
Theorem saved_keys_load_and_verify (fs : FileSystem) (k : PrivateKey)
    (private_path public_path : string) (text : string) (salt : Salt) :
  rsa_sign_returns -> rsa_verify_accepts -> public_pem_round_trip ->
  generated k ->
  load_pem_private_key (key_private_bytes k None) None = Return k ->
  private_path <> public_path ->
  writable fs private_path = true ->
  writable fs public_path = true ->
  exists fs1 fs2 signature_bytes,
    crypto_utils.save_private_key fs k private_path None = Return fs1 /\
    crypto_utils.save_public_key fs1 k public_path = Return fs2 /\
    crypto_utils.load_private_key fs2 private_path None = Return k /\
    crypto_utils.load_public_key fs2 public_path = Return (key_public_key k) /\
    crypto_utils.sign_text text k salt = Return signature_bytes /\
    crypto_utils.verify_signature text signature_bytes (key_public_key k) = Return true.
Proof.
  intros Hsigns Haccepts Hpem Hgen Hpriv Hne Hw1 Hw2.
  destruct (Hsigns k (str_encode text) salt Hgen) as [sig Hsig].
  set (fs1 := {| files := <[private_path := key_private_bytes k None]> (files fs);
                 writable := writable fs |}).
  set (fs2 := {| files := <[public_path := key_public_bytes (key_public_key k)]> (files fs1);
                 writable := writable fs1 |}).
  exists fs1, fs2, sig.
  unfold crypto_utils.save_private_key, crypto_utils.save_public_key, write_bytes,
    crypto_utils.load_private_key, crypto_utils.load_public_key, read_bytes.
  cbn [writable files fs1 fs2 password_bytes str_truthy]. rewrite Hw1, Hw2.
  split; [done|]. split; [done|].
  rewrite lookup_insert_ne, !lookup_insert_eq by done. cbn [mbind outcome_bind].
  split; [done|]. split; [by apply Hpem|]. split; [done|].
  unfold crypto_utils.verify_signature. by rewrite (Haccepts k _ salt sig Hgen Hsig).
Qed.

End CryptoUtilsProperties.

Section ProcessorAndCryptoUtils.
Context `{PyValues} `{!Pydantic} `{Cryptography} `{!PrivateKeySerializer} `{JsonLib}.

(** X19. The processor accepts an artifact exactly when its three own checks pass
    and [crypto_utils.verify_signature] accepts the decoded signature over the
    stored payload: the two verifiers differ only in what they do with an
    exception. *)
Theorem verify_signature_via_crypto_utils (self : DocumentProcessor) (d : Document)
    (a : Signature) :
  verify_signature self d a = Return true <->
  id d = document_id a /\
  _document_to_canonical_json self d = json_version a /\
  exists pk signature_bytes,
    load_pem_public_key (str_encode (public_key a)) = Return pk /\
    bytes_fromhex (signature a) = Return signature_bytes /\
    crypto_utils.verify_signature (json_version a) signature_bytes pk = Return true.
Proof.
  rewrite verify_signature_true. unfold _document_to_canonical_json.
  split; intros (Hid & Hjs & pk & sig & Hpk & Hhex & Hv);
    (split; [done|]); (split; [done|]); exists pk, sig;
    (split; [done|]); (split; [done|]).
  - unfold crypto_utils.verify_signature. by rewrite Hv.
  - unfold crypto_utils.verify_signature in Hv.
    destruct (key_verify pk sig _) as [[]|e]; [done|].
    by destruct (decide _).
Qed.

End ProcessorAndCryptoUtils.

(** ** The HTTP handlers *)

Lemma replace_backslash_n_cons (c : ascii) (rest : string) :
  Ascii.eqb c "092" = false ->
  replace_backslash_n (String c rest) = String c (replace_backslash_n rest).
Proof.
  intros Hc. cbn [replace_backslash_n]. destruct rest as [|c2 rest2]; [done|].
  by rewrite Hc.
Qed.

Lemma replace_backslash_n_escaped (rest : string) :
  replace_backslash_n (String "092" (String "n" rest))
  = String "010" (replace_backslash_n rest).
Proof. reflexivity. Qed.

(** X20. The handler's normalisation leaves a text without backslashes as it is,
    and turns the escaped form of such a text back into the text. *)
Theorem replace_backslash_n_normalises (s : string) :
  has_backslash s = false ->
  replace_backslash_n s = s /\
  replace_backslash_n (line_feeds_escaped s) = s.
Proof.
  induction s as [|c s IH]; [done|].
  cbn [has_backslash]. intros Hs. apply orb_false_elim in Hs as [Hc Hs].
  destruct (IH Hs) as [IH1 IH2]. split.
  - by rewrite replace_backslash_n_cons, IH1.
  - cbn [line_feeds_escaped]. destruct (Ascii.eqb c "010") eqn:Hlf.
    + apply Ascii.eqb_eq in Hlf as ->. by rewrite replace_backslash_n_escaped, IH2.
    + by rewrite replace_backslash_n_cons, IH2.
Qed.

Section HandlerProperties.
Context `{PyValues} `{!Pydantic} `{Cryptography} `{JsonLib}.

(** X21. POST /keys/add: when the normalised PEM loads, the answer is 201, the
    normalised PEM is the signer's entry and GET /keys/{signer_id} finds it;
    when it does not load, the answer is 400 with the service's message and
    the registry is as before.  No exception leaves the handler. *)
Theorem add_key_endpoint (service : SignedDocumentsService) (request : AddKeyRequest.t) :
  let signer := AddKeyRequest.signer_id request in
  let pem := replace_backslash_n (AddKeyRequest.public_key_pem request) in
  (returns (load_pem_public_key (str_encode pem)) ->
   (document_app.add_trusted_key service request).2
   = Response 201
       {| AddKeyResponse.success := true;
          AddKeyResponse.message :=
            "Successfully added trusted key for signer " ++ str_of_int signer |} /\
   document_app.get_trusted_key (document_app.add_trusted_key service request).1 signer
   = Response 200
       {| GetKeyResponse.signer_id := signer;
          GetKeyResponse.public_key_pem := Some pem;
          GetKeyResponse.found := true |}) /\
  (forall e, load_pem_public_key (str_encode pem) = Raise e ->
     document_app.add_trusted_key service request
     = (service, HTTPException 400 ("Invalid public key format: " ++ exn_str e))) /\
  (forall e, (document_app.add_trusted_key service request).2 <> Unhandled e).
Proof.
  intros signer pem. unfold document_app.add_trusted_key, document_app.get_trusted_key.
  fold signer pem. unfold add_trusted_key, get_trusted_key.
  destruct (load_pem_public_key (str_encode pem)) as [pk|e0]; cbn.
  - split; [|split; [done|done]]. intros _. split; [done|].
    rewrite lookup_insert_eq. by rewrite bool_decide_eq_true_2 by eauto.
  - split; [by intros [? ?]|]. split; [by intros e [= <-]|done].
Qed.

(** X22. A key registered through POST /keys/add in either form, with real line
    feeds or with escaped ones, is the key artifacts carry: an artifact
    that passes bare verification and whose PEM has no backslash verifies
    against the registry afterwards. *)
Theorem key_added_over_http_verifies (proc : DocumentProcessor)
    (service : SignedDocumentsService) (d : Document) (a : Signature)
    (request : AddKeyRequest.t) :
  verify_signature proc d a = Return true ->
  has_backslash (public_key a) = false ->
  AddKeyRequest.signer_id request = signator_id a ->
  AddKeyRequest.public_key_pem request = public_key a \/
  AddKeyRequest.public_key_pem request = line_feeds_escaped (public_key a) ->
  verify_document_signature (document_app.add_trusted_key service request).1 d a
  = Return true.
Proof.
  intros Hv Hbs Hsigner Hpem.
  assert (replace_backslash_n (AddKeyRequest.public_key_pem request) = public_key a)
    as Hnorm.
  { destruct (replace_backslash_n_normalises _ Hbs) as [Hplain Hescaped].
    destruct Hpem as [-> | ->]; done. }
  apply verify_signature_true in Hv as (Hid & Hjs & pk & sig & Hpk & Hhex & Hver).
  unfold document_app.add_trusted_key, add_trusted_key.
  rewrite Hnorm, Hsigner, Hpk. cbn [fst].
  apply verify_document_signature_true. cbn [trusted_keys].
  rewrite lookup_insert_eq. eauto 10.
Qed.

(** X23. DELETE /keys/{signer_id}: 200 and the entry gone when the signer was
    registered, 404 with the registry unchanged when it was not. *)
Theorem remove_key_endpoint (service : SignedDocumentsService) (signer : Z) :
  (is_Some (get_trusted_key service signer) ->
   (document_app.remove_trusted_key service signer).2
   = Response 200
       {| RemoveKeyResponse.success := true;
          RemoveKeyResponse.message :=
            "Successfully removed key for signer " ++ str_of_int signer |} /\
   get_trusted_key (document_app.remove_trusted_key service signer).1 signer = None) /\
  (get_trusted_key service signer = None ->
   document_app.remove_trusted_key service signer
   = (service, HTTPException 404 ("Signer " ++ str_of_int signer ++ " not found"))).
Proof.
  unfold document_app.remove_trusted_key, remove_trusted_key, get_trusted_key. split.
  - intros Hin. rewrite bool_decide_eq_true_2 by done. cbn.
    split; [done|]. apply lookup_delete_eq.
  - intros Hnone. rewrite bool_decide_eq_false_2; [done|]. rewrite Hnone. by intros [? ?].
Qed.

(** X24. POST /verify always answers 200: the 500 branch cannot be taken, since
    the service never raises; [valid] is the service's verdict. *)
Theorem verify_endpoint_never_fails (service : SignedDocumentsService)
    (d : Document) (a : Signature) :
  exists body,
    document_app.verify_document_signature service d a = Response 200 body /\
    verify_document_signature service d a = Return (VerifyResponse.valid body) /\
    VerifyResponse.message body
    = if VerifyResponse.valid body then "Signature is valid"
      else "Signature is invalid or signer is not trusted".
Proof.
  unfold document_app.verify_document_signature.
  destruct (verify_document_signature_total service d a) as [-> | ->];
    eexists; (split; [reflexivity|]); done.
Qed.

(** X25. GET /health counts the signers GET /keys lists, which is the number of
    registry entries: none for a fresh service, one more after a successful
    add of a new signer, one fewer after a successful remove. *)
Theorem health_check_counts_signers (service : SignedDocumentsService)
    (request : AddKeyRequest.t) (signer : Z) :
  document_app.health_check SignedDocumentsService_init
  = Response 200 {| HealthResponse.status := "healthy";
                    HealthResponse.trusted_signers_count := 0 |} /\
  document_app.health_check service
  = Response 200 {| HealthResponse.status := "healthy";
                    HealthResponse.trusted_signers_count := size (trusted_keys service) |} /\
  (forall body,
     get_trusted_key service (AddKeyRequest.signer_id request) = None ->
     (document_app.add_trusted_key service request).2 = Response 201 body ->
     document_app.health_check (document_app.add_trusted_key service request).1
     = Response 200 {| HealthResponse.status := "healthy";
                       HealthResponse.trusted_signers_count :=
                         S (size (trusted_keys service)) |}) /\
  (is_Some (get_trusted_key service signer) ->
   document_app.health_check (document_app.remove_trusted_key service signer).1
   = Response 200 {| HealthResponse.status := "healthy";
                     HealthResponse.trusted_signers_count :=
                       pred (size (trusted_keys service)) |}).
Proof.
  assert (Hcount : forall sv : SignedDocumentsService,
             length (service_list_trusted_signers sv) = size (trusted_keys sv)).
  { intros sv. unfold service_list_trusted_signers, list_trusted_signers.
    by rewrite length_fmap, length_map_to_list. }
  unfold document_app.health_check. rewrite !Hcount.
  split; [unfold SignedDocumentsService_init; cbn [trusted_keys];
          by rewrite map_size_empty|].
  split; [done|]. split.
  - intros body Hnone. unfold document_app.add_trusted_key, add_trusted_key.
    destruct (load_pem_public_key _) as [pk|e]; cbn.
    + intros _. by rewrite map_size_insert_None.
    + done.
  - intros Hin. unfold document_app.remove_trusted_key, remove_trusted_key.
    unfold get_trusted_key in Hin. rewrite bool_decide_eq_true_2 by done. cbn.
    by rewrite map_size_delete_Some.
Qed.

End HandlerProperties.

(** * The reference libraries satisfy the laws *)

Module ReferenceFacts.
Import Reference.
Local Open Scope list_scope.

(** ** JSON text round trip *)

Lemma json_ind' (P : json -> Prop) :
  P JNull -> (forall b, P (JBool b)) -> (forall n, P (JInt n)) -> (forall s, P (JStr s)) ->
  (forall l, Forall P l -> P (JList l)) ->
  (forall kvs, Forall (fun kv => P (snd kv)) kvs -> P (JDict kvs)) ->
  forall j, P j.
Proof.
  intros Hnull Hbool Hint Hstr Hlist Hdict.
  fix IH 1. intros [ |b|n|s|l|kvs];
    [apply Hnull|apply Hbool|apply Hint|apply Hstr| |].
  - apply Hlist. induction l as [|x l IHl]; constructor; [apply IH | exact IHl].
  - apply Hdict. induction kvs as [|[k v] kvs IHl]; constructor; [apply IH | exact IHl].
Qed.

Lemma parse_str_escape (s rest : list ascii) :
  parse_str (escape s ++ quote :: rest) = Some (s, rest).
Proof.
  induction s as [|c s IH]; [reflexivity|].
  simpl. destruct (needs_escape c) eqn:Hesc; simpl.
  - rewrite Hesc, IH. reflexivity.
  - unfold needs_escape in Hesc. apply orb_false_elim in Hesc as [-> ->].
    by rewrite IH.
Qed.

Lemma parse_digits_print (u : Decimal.uint) (rest : list ascii) :
  number_ends rest -> parse_digits (print_uint u ++ rest) = (u, rest).
Proof.
  intros Hrest. induction u; simpl; try (by rewrite IHu).
  destruct rest as [|c rest]; [reflexivity|]. simpl in *. by rewrite Hrest.
Qed.

Lemma print_uint_head (u : Decimal.uint) :
  u <> Nil -> exists c tl, print_uint u = c :: tl /\ is_Some (digit_of c).
Proof. destruct u; [done|..]; intros _; simpl; eauto. Qed.

Lemma digit_not_minus c : is_Some (digit_of c) -> Ascii.eqb c "-" = false.
Proof.
  destruct c as [[] [] [] [] [] [] [] []]; simpl; try reflexivity; by intros [? ?].
Qed.

Lemma to_int_nonnil (n : Z) :
  match Z.to_int n with Decimal.Pos u | Decimal.Neg u => u <> Nil end.
Proof.
  destruct n; simpl; [done|..]; apply DecimalPos.Unsigned.to_uint_nonnil.
Qed.

Lemma parse_int_print (n : Z) (rest : list ascii) :
  number_ends rest -> parse_int (print_int n ++ rest) = Some (JInt n, rest).
Proof.
  intros Hrest. pose proof (to_int_nonnil n) as Hnn.
  pose proof (DecimalZ.of_to n) as Hof.
  unfold print_int. destruct (Z.to_int n) as [u|u].
  - destruct (print_uint_head u Hnn) as (c & tl & Hc & Hdig).
    unfold parse_int. rewrite Hc. cbn [app]. rewrite (digit_not_minus c Hdig).
    change (c :: tl ++ rest) with ((c :: tl) ++ rest).
    rewrite <- Hc, parse_digits_print by done.
    destruct u; [done|..]; by rewrite Hof.
  - unfold parse_int. cbn [app]. rewrite Ascii.eqb_refl, parse_digits_print by done.
    destruct u; [done|..]; by rewrite Hof.
Qed.

Lemma print_int_head (n : Z) :
  exists c tl, print_int n = c :: tl /\ starts_number c = true.
Proof.
  pose proof (to_int_nonnil n) as Hnn. unfold print_int.
  destruct (Z.to_int n) as [u|u].
  - destruct (print_uint_head u Hnn) as (c & tl & Hc & Hdig).
    exists c, tl. split; [done|]. unfold starts_number.
    by rewrite bool_decide_eq_true_2.
  - eauto.
Qed.

Lemma starts_number_not_close c : starts_number c = true -> Ascii.eqb c "]" = false.
Proof.
  destruct c as [[] [] [] [] [] [] [] []]; simpl; try reflexivity; discriminate.
Qed.

Lemma print_head (j : json) :
  exists c tl, print j = c :: tl /\ Ascii.eqb c "]" = false.
Proof.
  destruct j as [ |[]|n|s|l|kvs]; simpl; eauto.
  destruct (print_int_head n) as (c & tl & -> & Hc).
  eauto using starts_number_not_close.
Qed.

Lemma parse_elems_print (l : list json) :
  Forall parses l -> l <> [] ->
  forall fuel rest,
    (length (join_elems "]" (map print l)) < fuel)%nat ->
    parse_elems fuel (join_elems "]" (map print l) ++ rest) = Some (l, rest).
Proof.
  induction 1 as [|x l Hx Hl IH]; [done|]. intros _ fuel rest Hfuel.
  destruct fuel as [|fuel]; [lia|]. simpl in Hfuel. rewrite length_app in Hfuel.
  cbn [map join_elems parse_elems]. rewrite <- app_assoc.
  destruct l as [|y l].
  - simpl in *. rewrite Hx by (done || lia). reflexivity.
  - set (tail := join_elems "]" (map print (y :: l))) in *.
    simpl "++". simpl in Hfuel.
    rewrite Hx by (done || lia). simpl.
    rewrite IH by (done || lia). reflexivity.
Qed.

Lemma print_JDict kvs : print (JDict kvs) = "{"%char :: join_elems "}" (map print_member kvs).
Proof. reflexivity. Qed.

Lemma parse_member_key (k : string) (rest : list ascii) :
  parse_str (escape (chars k) ++ quote :: rest) = Some (chars k, rest) /\
  string_of_list_ascii (chars k) = k.
Proof. split; [apply parse_str_escape | apply string_of_list_ascii_of_string]. Qed.

Lemma parse_members_print (kvs : list (string * json)) :
  Forall (fun kv => parses (snd kv)) kvs -> kvs <> [] ->
  forall fuel rest,
    (length (join_elems "}" (map print_member kvs)) < fuel)%nat ->
    parse_members fuel (join_elems "}" (map print_member kvs) ++ rest) = Some (kvs, rest).
Proof.
  induction 1 as [|[k v] kvs Hx Hl IH]; [done|]. intros _ fuel rest Hfuel.
  destruct fuel as [|fuel]; [lia|].
  cbn [map join_elems] in *. unfold print_member at 1 in Hfuel. unfold print_member at 1.
  cbn [fst snd] in *. rewrite !length_app in Hfuel. cbn [length] in Hfuel.
  unfold print_str. rewrite <- !app_assoc. cbn [app parse_members].
  rewrite Ascii.eqb_refl. rewrite <- app_assoc. cbn [app].
  destruct (parse_member_key k
    (":"%char :: print v ++ match map print_member kvs with
                           | [] => ["}"%char]
                           | _ :: _ => ","%char :: join_elems "}" (map print_member kvs)
                           end ++ rest)) as [-> ->].
  rewrite Ascii.eqb_refl.
  destruct kvs as [|y kvs].
  - cbn [map app] in *. rewrite Hx by (done || cbn [length] in *; lia). reflexivity.
  - set (tail := join_elems "}" (map print_member (y :: kvs))) in *.
    cbn [map app] in *. cbn [length] in Hfuel.
    rewrite Hx by (done || lia). cbn beta iota.
    change (Ascii.eqb "," ",") with true. cbn beta iota.
    rewrite IH by (done || lia). reflexivity.
Qed.

Lemma parse_value_string fuel rest :
  parse_value (S fuel) (quote :: rest)
  = '(str, rest') ← parse_str rest; Some (JStr (string_of_list_ascii str), rest').
Proof. reflexivity. Qed.

Lemma parse_value_list fuel rest :
  parse_value (S fuel) ("["%char :: rest)
  = if starts_with "]" rest then Some (JList [], tl rest)
    else '(l, rest') ← parse_elems fuel rest; Some (JList l, rest').
Proof. reflexivity. Qed.

Lemma parse_value_dict fuel rest :
  parse_value (S fuel) ("{"%char :: rest)
  = if starts_with "}" rest then Some (JDict [], tl rest)
    else '(kvs, rest') ← parse_members fuel rest; Some (JDict kvs, rest').
Proof. reflexivity. Qed.

Lemma elems_not_closed x l rest :
  starts_with "]" (join_elems "]" (map print (x :: l)) ++ rest) = false.
Proof.
  destruct (print_head x) as (c & tl & Hc & Hclose).
  cbn [map join_elems]. by rewrite Hc.
Qed.

Lemma members_not_closed x kvs rest :
  starts_with "}" (join_elems "}" (map print_member (x :: kvs)) ++ rest) = false.
Proof. reflexivity. Qed.

Lemma parse_value_print (j : json) : parses j.
Proof.
  induction j as [ |b|n|s|l IH|kvs IH] using json_ind'; intros fuel rest Hfuel Hrest;
    (destruct fuel as [|fuel]; [lia|]).
  - reflexivity.
  - by destruct b.
  - destruct (print_int_head n) as (c & tl & Hc & Hnum).
    cbn [print]. rewrite Hc. cbn [app parse_value]. rewrite Hnum.
    change (c :: tl ++ rest) with ((c :: tl) ++ rest).
    rewrite <- Hc. by apply parse_int_print.
  - cbn [print]. unfold print_str. cbn [app]. rewrite parse_value_string.
    rewrite <- app_assoc. cbn [app].
    destruct (parse_member_key s rest) as [-> Hs]. cbn. by rewrite Hs.
  - destruct l as [|x l]; [reflexivity|].
    cbn [print length app] in *. rewrite parse_value_list, elems_not_closed.
    rewrite parse_elems_print by (done || lia). reflexivity.
  - destruct kvs as [|x kvs]; [reflexivity|].
    rewrite print_JDict in *. cbn [length app] in *.
    rewrite parse_value_dict, members_not_closed.
    rewrite parse_members_print by (done || lia). reflexivity.
Qed.

Lemma parse_print_json (j : json) : parse_json (print_json j) = Some j.
Proof.
  unfold parse_json, print_json, chars.
  rewrite list_ascii_of_string_of_list_ascii.
  pose proof (parse_value_print j (S (String.length (string_of_list_ascii (print j)))) []) as Hp.
  rewrite app_nil_r in Hp. rewrite Hp; [done| |done].
  assert (forall l, String.length (string_of_list_ascii l) = length l) as ->; [|lia].
  induction l; simpl; congruence.
Qed.


Lemma json_loads_dumps (j : json) : json_loads (print_json j) = Return j.
Proof. cbn. by rewrite parse_print_json. Qed.


(** ** Models *)

Lemma Paragraphs_of_to_json (l : list Paragraph) :
  Paragraphs_of_json (map Paragraph_to_json l) = Return l.
Proof.
  induction l as [|[ft ph tx] l IH]; [reflexivity|].
  cbn [map Paragraphs_of_json]. rewrite IH. reflexivity.
Qed.

Lemma Document_of_to_json (d : Document) :
  exists kw, Document_to_json d = JDict kw /\ Document_of_kwargs kw = Return d.
Proof.
  eexists. split; [reflexivity|].
  destruct d as [i parent author addressee created paragraphs].
  unfold Document_of_kwargs. cbn -[Paragraphs_of_json].
  destruct parent; cbn -[Paragraphs_of_json]; by rewrite Paragraphs_of_to_json.
Qed.

Lemma Signature_of_to_json (a : Signature) :
  exists kw, Signature_to_json a = JDict kw /\ Signature_of_kwargs kw = Return a.
Proof. eexists. split; [reflexivity|]. by destruct a. Qed.


Lemma reference_Document_json_round_trip : Document_json_round_trip.
Proof.
  intros d. destruct (Document_of_to_json d) as (kw & Hkw & Hd).
  exists (Document_to_json d), kw, d.
  split; [apply json_loads_dumps|]. split; [by rewrite Hkw|]. done.
Qed.

Lemma reference_Signature_json_round_trip : Signature_json_round_trip.
Proof.
  intros a. destruct (Signature_of_to_json a) as (kw & Hkw & Ha).
  exists (Signature_to_json a), kw, a.
  split; [apply json_loads_dumps|]. split; [by rewrite Hkw|]. done.
Qed.

Lemma reference_json_dumps_round_trip : json_dumps_round_trip.
Proof. intros sd ss jd js _ _. apply json_loads_dumps. Qed.

(** ** Keys *)

Lemma rsa_key_correct_round (n e d h : Z) :
  rsa_key_correct n e d = true -> 0 <= h < n -> rsa_round n e d h = true.
Proof.
  intros Hall Hh. unfold rsa_key_correct in Hall.
  rewrite forallb_forall in Hall. apply Hall.
  apply list_elem_of_In, elem_of_seqZ. lia.
Qed.

Lemma generated_cases (k : PrivateKey) :
  generated k ->
  exists n e d, k = RSAPrivateKey n e d /\ 0 < n /\ rsa_key_correct n e d = true /\
    load_public (pem "PUBLIC KEY" (public_material (RSAPublicKey n e)))
    = Return (RSAPublicKey n e).
Proof.
  intros [entropy ->]. cbn. unfold generate.
  destruct (entropy mod 3)%nat as [|[|?]]; do 3 eexists;
    (split; [reflexivity|]); (split; [lia|]); split; by vm_compute.
Qed.

Lemma reference_rsa_sign_returns : rsa_sign_returns.
Proof.
  intros k message salt Hgen.
  destruct (generated_cases k Hgen) as (n & e & d & -> & _). cbn. by eexists.
Qed.

Lemma reference_rsa_verify_accepts : rsa_verify_accepts.
Proof.
  intros k message salt sig Hgen Hsig.
  change byte in salt. change (list byte) in sig.
  destruct (generated_cases k Hgen) as (n & e & d & -> & Hn & Hok & _).
  injection Hsig as <-.
  change (verify (RSAPublicKey n e)
            [salt; byte_of_Z (pow_mod (digest (salt :: message) mod n) d n / 256);
             byte_of_Z (pow_mod (digest (salt :: message) mod n) d n)] message
          = Return tt).
  unfold verify.
  pose proof (rsa_key_correct_round n e d (digest (salt :: message) mod n) Hok) as Hround.
  unfold rsa_round in Hround. rewrite Hround; [done|].
  apply Z.mod_pos_bound. lia.
Qed.

Lemma reference_public_pem_round_trip : public_pem_round_trip.
Proof.
  intros k Hgen. destruct (generated_cases k Hgen) as (n & e & d & -> & _ & _ & Hpem).
  exact Hpem.
Qed.

End ReferenceFacts.

(** * The theorems at work on the reference libraries *)

Import Reference ReferenceFacts.

Lemma sign_then_verify_witness :
  exists a, sign_document sample_processor sample_document 42 sample_salt sample_time = Return a /\
            verify_signature sample_processor sample_document a = Return true.
Proof.
  apply (sign_then_verify sample_processor (generate 7) sample_document 42 sample_salt sample_time
           reference_rsa_sign_returns reference_rsa_verify_accepts
           reference_public_pem_round_trip);
    [reflexivity | by exists 7%nat].
Defined.


Lemma verify_signature_fail_closed_witness :
  verify_signature sample_processor sample_document malformed_artifact = Return false /\
  verify_signature sample_processor sample_document foreign_key_artifact = Return false /\
  verify_signature sample_processor sample_document unsigned_artifact = Return false.
Proof.
  split; [|split].
  - destruct (verify_signature_fail_closed sample_processor sample_document
                malformed_artifact) as (_ & _ & _ & Hpem & _).
    apply (Hpem (PyExc ValueError "Unable to load PEM file")). reflexivity.
  - destruct (verify_signature_fail_closed sample_processor sample_document
                foreign_key_artifact) as (_ & Hraise & _).
    apply (Hraise not_rsa). by vm_compute.
  - destruct (verify_signature_fail_closed sample_processor sample_document
                unsigned_artifact) as (_ & Hraise & _).
    apply (Hraise (PyExc InvalidSignature EmptyString)). by vm_compute.
Defined.

Lemma save_then_load_preserves_verification_witness :
  writable empty_disk "pair.json" = true /\
  exists fs' d' a',
    save_document_signature_pair sample_processor empty_disk sample_document
      malformed_artifact "pair.json" = Return fs' /\
    load_document_signature_pair sample_processor fs' "pair.json" = Return (d', a') /\
    verify_signature sample_processor d' a'
    = verify_signature sample_processor sample_document malformed_artifact.
Proof.
  split; [reflexivity|].
  apply (save_then_load_preserves_verification sample_processor empty_disk sample_document
           malformed_artifact "pair.json"
           reference_Document_json_round_trip reference_Signature_json_round_trip
           reference_json_dumps_round_trip).
  reflexivity.
Defined.

Lemma sign_document_precondition_witness :
  sign_document keyless_processor sample_document 42 sample_salt sample_time
  = Raise (PyExc ValueError "No private key loaded") /\
  exists a, sign_document sample_processor sample_document 42 sample_salt sample_time = Return a /\
            document_id a = id sample_document /\ signator_id a = 42.
Proof.
  split.
  - apply (sign_document_precondition keyless_processor sample_document 42 sample_salt
             sample_time reference_rsa_sign_returns). reflexivity.
  - apply (sign_document_precondition sample_processor sample_document 42 sample_salt
             sample_time reference_rsa_sign_returns) with (k := generate 7);
      [reflexivity | by exists 7%nat].
Defined.

(** C7 as stated fails: a processor that loaded a private key of the second
    scheme has a key configured, and signing with it raises. *)
Lemma sign_with_loaded_ec_key_raises :
  let k := ECPrivateKey 513 in
  let self := {| private_key := Some k |} in
  load_private_key keyless_processor ec_key_disk "ec_key.pem" None = Return (self, k) /\
  sign_document self sample_document 42 sample_salt sample_time = Raise not_rsa /\
  ~ returns (sign_document self sample_document 42 sample_salt sample_time).
Proof.
  intros k self. split; [|split].
  - unfold load_private_key, read_bytes, ec_key_disk. cbn [files].
    rewrite lookup_singleton_eq. reflexivity.
  - reflexivity.
  - intros [a Ha]. discriminate Ha.
Qed.

Lemma init_with_missing_key_file_witness :
  path_exists empty_disk "private_key.pem" = false /\
  DocumentProcessor_init empty_disk (Some "private_key.pem") = Return keyless_processor.
Proof.
  split; [reflexivity|].
  apply (init_with_missing_key_file empty_disk "private_key.pem"). reflexivity.
Defined.

Lemma sample_artifact_verifies :
  verify_signature sample_processor sample_document sample_artifact = Return true.
Proof. by vm_compute. Qed.

Lemma registry_gating_witness :
  verify_document_signature sample_service sample_document sample_artifact = Return true /\
  verify_document_signature SignedDocumentsService_init sample_document sample_artifact
  = Return false.
Proof.
  destruct (registry_gating sample_processor sample_service sample_document sample_artifact)
    as (_ & Htrue & _).
  destruct (registry_gating sample_processor SignedDocumentsService_init sample_document
              sample_artifact) as (Habsent & _).
  split.
  - apply Htrue. split; [exact sample_artifact_verifies|]. apply lookup_singleton_eq.
  - apply Habsent. apply lookup_empty.
Defined.

Lemma registry_removal_witness :
  (remove_trusted_key sample_service 42).2 = true /\
  verify_document_signature (remove_trusted_key sample_service 42).1
    sample_document sample_artifact = Return false.
Proof.
  apply (registry_removal sample_service 42); [reflexivity|].
  apply verify_document_signature_true. split; [apply lookup_singleton_eq|].
  apply (verify_signature_true sample_processor). exact sample_artifact_verifies.
Defined.

Lemma registry_add_witness :
  add_trusted_key SignedDocumentsService_init 42 "not a PEM"
  = (SignedDocumentsService_init,
     Raise (PyExc ValueError "Invalid public key format: Unable to load PEM file")) /\
  get_trusted_key
    (add_trusted_key sample_service 42 (public_key sample_artifact)).1 42
  = Some (public_key sample_artifact).
Proof.
  split.
  - exact (proj1 (registry_add SignedDocumentsService_init 42 "not a PEM")
             (PyExc ValueError "Unable to load PEM file") eq_refl).
  - destruct (registry_add sample_service 42 (public_key sample_artifact))
      as (_ & Hadd & _).
    destruct (Hadd (RSAPublicKey 2773 65537)) as (_ & Hget & _);
      [by vm_compute | exact Hget].
Defined.

(** * The further properties at work on the reference libraries *)

Lemma reference_private_pem_round_trip (k : PrivateKey) :
  generated k -> load_pem_private_key (key_private_bytes k None) None = Return k.
Proof.
  intros [entropy ->]. cbn. unfold generate.
  destruct (entropy mod 3)%nat as [|[|?]]; by vm_compute.
Qed.

Lemma sample_key_generated : generated (generate 7).
Proof. by exists 7%nat. Qed.

Lemma sample_pem_loads :
  load_pem_public_key (str_encode (public_key sample_artifact))
  = Return (RSAPublicKey 2773 65537).
Proof. by vm_compute. Qed.

Lemma second_pem_loads :
  load_pem_public_key (str_encode second_pem) = Return (RSAPublicKey 3233 65537).
Proof. by vm_compute. Qed.

Lemma replayed_artifact_rejected_witness :
  exists a, sign_document sample_processor sample_document 42 sample_salt sample_time = Return a /\
            id other_document <> id sample_document /\
            verify_signature keyless_processor other_document a = Return false.
Proof.
  eexists. split; [reflexivity|]. split; [discriminate|].
  apply (replayed_artifact_rejected sample_processor keyless_processor sample_document
           other_document 42 sample_salt sample_time _);
    [reflexivity | discriminate].
Defined.

Lemma accepted_artifact_is_bound_witness :
  document_id sample_artifact = id sample_document /\
  json_version sample_artifact = _document_to_canonical_json sample_processor sample_document /\
  returns (load_pem_public_key (str_encode (public_key sample_artifact))) /\
  returns (bytes_fromhex (signature sample_artifact)).
Proof.
  apply (accepted_artifact_is_bound sample_processor sample_document sample_artifact).
  exact sample_artifact_verifies.
Defined.

Lemma manipulated_json_version_rejected_witness :
  verify_signature sample_processor sample_document manipulated_artifact = Return false.
Proof.
  apply (manipulated_json_version_rejected sample_processor sample_document
           manipulated_artifact).
  intros Heq. vm_compute in Heq. discriminate Heq.
Defined.

Lemma signed_artifact_contents_witness :
  exists a, sign_document sample_processor sample_document 42 sample_salt sample_time = Return a /\
            get_public_key_pem sample_processor = Return (public_key a) /\
            String.length (signature a) = 6%nat.
Proof.
  eexists. split; [reflexivity|].
  destruct (signed_artifact_contents sample_processor sample_document 42 sample_salt
              sample_time _ eq_refl)
    as (_ & _ & _ & _ & Hpem & k & sig & _ & _ & _ & Hlen).
  split; [exact Hpem|]. by vm_compute.
Defined.

Lemma save_then_load_private_key_witness :
  exists fs',
    save_private_key sample_processor empty_disk "private_key.pem" None = Return fs' /\
    load_private_key keyless_processor fs' "private_key.pem" None
    = Return (sample_processor, generate 7) /\
    DocumentProcessor_init fs' (Some "private_key.pem") = Return sample_processor.
Proof.
  destruct (save_then_load_private_key sample_processor keyless_processor (generate 7)
              empty_disk "private_key.pem" None eq_refl eq_refl
              (reference_private_pem_round_trip _ sample_key_generated))
    as (fs' & Hsave & Hload & _).
  exists fs'. split; [exact Hsave|]. split; [exact Hload|].
  unfold DocumentProcessor_init, path_exists. 
  injection Hsave as <-. cbn [files str_truthy andb].
  rewrite bool_decide_eq_true_2 by (rewrite lookup_insert_eq; eauto).
  unfold load_private_key in *. by rewrite Hload.
Defined.

Lemma init_with_existing_key_file_witness :
  DocumentProcessor_init ec_key_disk (Some "ec_key.pem")
  = Return {| private_key := Some (ECPrivateKey 513) |}.
Proof.
  destruct (init_with_existing_key_file ec_key_disk "ec_key.pem"
              (pem "PRIVATE KEY" (private_material (ECPrivateKey 513))))
    as (Hloads & _); [apply lookup_singleton_eq | discriminate |].
  apply Hloads. reflexivity.
Defined.

Lemma exported_pem_is_accepted_witness :
  exists pem,
    get_public_key_pem sample_processor = Return pem /\
    (add_trusted_key SignedDocumentsService_init 42 pem).2 = Return tt /\
    get_trusted_key (add_trusted_key SignedDocumentsService_init 42 pem).1 42 = Some pem.
Proof.
  apply (exported_pem_is_accepted sample_processor (generate 7) SignedDocumentsService_init 42
           reference_public_pem_round_trip eq_refl sample_key_generated).
Defined.

Lemma signed_and_registered_verifies_witness :
  exists a pem,
    sign_document sample_processor sample_document 42 sample_salt sample_time = Return a /\
    get_public_key_pem sample_processor = Return pem /\
    verify_document_signature (add_trusted_key SignedDocumentsService_init 42 pem).1
      sample_document a = Return true.
Proof.
  destruct (signed_and_registered_verifies sample_processor (generate 7)
              SignedDocumentsService_init sample_document 42 sample_salt sample_time
              reference_rsa_sign_returns reference_rsa_verify_accepts
              reference_public_pem_round_trip eq_refl sample_key_generated)
    as (a & pem & Hsign & Hpem & Hverify & _).
  exists a, pem. done.
Defined.

Lemma rotated_key_rejects_old_artifacts_witness :
  verify_document_signature sample_service sample_document sample_artifact = Return true /\
  verify_document_signature (add_trusted_key sample_service 42 second_pem).1
    sample_document sample_artifact = Return false.
Proof.
  split.
  - apply verify_document_signature_true. split; [apply lookup_singleton_eq|].
    apply (verify_signature_true sample_processor). exact sample_artifact_verifies.
  - apply (rotated_key_rejects_old_artifacts sample_service sample_document sample_artifact
             second_pem).
    + eexists. exact second_pem_loads.
    + intros Heq. vm_compute in Heq. discriminate Heq.
Defined.

Lemma other_signers_unaffected_witness :
  verify_document_signature (add_trusted_key sample_service 7 second_pem).1
    sample_document sample_artifact
  = verify_document_signature sample_service sample_document sample_artifact /\
  verify_document_signature (remove_trusted_key sample_service 7).1
    sample_document sample_artifact
  = verify_document_signature sample_service sample_document sample_artifact.
Proof.
  apply (other_signers_unaffected sample_service sample_document sample_artifact 7
           second_pem).
  discriminate.
Defined.

Lemma add_trusted_key_overwrites_witness :
  (add_trusted_key (add_trusted_key SignedDocumentsService_init 42 second_pem).1 42
     (public_key sample_artifact)).1
  = (add_trusted_key SignedDocumentsService_init 42 (public_key sample_artifact)).1.
Proof.
  apply (add_trusted_key_overwrites SignedDocumentsService_init 42 second_pem
           (public_key sample_artifact)).
  - eexists. exact second_pem_loads.
  - eexists. exact sample_pem_loads.
Defined.

(** With a public key of the second scheme, [crypto_utils.verify_signature]
    raises where the processor returns [False]. *)
Lemma crypto_utils_verify_signature_outcomes_witness :
  crypto_utils.verify_signature "Message signed with RSA" [x2a; x09; x12] foreign_public_key
  = Raise not_rsa.
Proof.
  apply (crypto_utils_verify_signature_outcomes "Message signed with RSA" [x2a; x09; x12]
           foreign_public_key).
  split; [reflexivity | discriminate].
Defined.

Lemma sign_text_then_verify_witness :
  exists signature_bytes,
    crypto_utils.sign_text "Hello, this is a test message" sample_key sample_salt
    = Return signature_bytes /\
    crypto_utils.verify_signature "Hello, this is a test message" signature_bytes
      (key_public_key sample_key) = Return true.
Proof.
  apply (sign_text_then_verify "Hello, this is a test message" sample_key sample_salt
           reference_rsa_sign_returns reference_rsa_verify_accepts sample_key_generated).
Defined.

Lemma saved_keys_load_and_verify_witness :
  exists fs1 fs2 signature_bytes,
    crypto_utils.save_private_key empty_disk sample_key "test_private.pem" None
    = Return fs1 /\
    crypto_utils.save_public_key fs1 sample_key "test_public.pem" = Return fs2 /\
    crypto_utils.load_private_key fs2 "test_private.pem" None = Return sample_key /\
    crypto_utils.load_public_key fs2 "test_public.pem"
    = Return (key_public_key sample_key) /\
    crypto_utils.sign_text "Test message for loaded keys" sample_key sample_salt
    = Return signature_bytes /\
    crypto_utils.verify_signature "Test message for loaded keys" signature_bytes
      (key_public_key sample_key) = Return true.
Proof.
  apply (saved_keys_load_and_verify empty_disk sample_key "test_private.pem"
           "test_public.pem" "Test message for loaded keys" sample_salt
           reference_rsa_sign_returns reference_rsa_verify_accepts
           reference_public_pem_round_trip sample_key_generated
           (reference_private_pem_round_trip sample_key sample_key_generated));
    [discriminate | reflexivity | reflexivity].
Defined.

Lemma replace_backslash_n_normalises_witness :
  replace_backslash_n (String "a" (String "010" "b")) = String "a" (String "010" "b") /\
  replace_backslash_n (String "a" (String "092" "nb")) = String "a" (String "010" "b").
Proof.
  apply (replace_backslash_n_normalises (String "a" (String "010" "b"))). reflexivity.
Defined.

Lemma key_added_over_http_verifies_witness :
  verify_document_signature
    (document_app.add_trusted_key SignedDocumentsService_init escaped_request).1
    sample_document sample_artifact = Return true.
Proof.
  apply (key_added_over_http_verifies sample_processor SignedDocumentsService_init
           sample_document sample_artifact escaped_request sample_artifact_verifies);
    [by vm_compute | reflexivity | by right].
Defined.
